(** * alphamantis.tas: the dashboardRun log parser

    A shallow embedding of [src/alphamantis/tas.py]: the [settings]
    property and the three generators [speed], [power] and [cg_speed] of
    [DashboardRunLog], and the merge done by [main].

    Conventions of the embedding.
    - A file is the list of the lines that [f.readline()] returns in turn:
      text after decoding and newline translation, every line but possibly
      the last one ending in a line feed, no line empty.  End of file is the
      end of the list.  Characters are code points below 256, where the
      decimal digits of [\d] are 0-9.
    - Python [int] is [Z].  Python [float] is the rational it denotes, kept
      in lowest terms ([Qred]); rounding and overflow of binary64 are not
      part of the model.
    - A generator is its sequence of yielded records together with how it
      ended: exhausted, or stopped by an exception.
    - The loops of the generators are functions on the lines left to read;
      an inner loop returns what it found and the lines it leaves, and the
      outer loop goes on from there, by recursion on the number of lines
      left.  For the proofs the same loops are also written as a machine
      that reads one line per step, and shown equal to them ([loops_run],
      [cg_loops_run]). *)

From Stdlib Require Import ZArith QArith Qround String Ascii List Lia Sorted.
From stdpp Require Import base tactics option list strings gmap.
From Equations Require Import Equations.
Import ListNotations.

(** ** Text scanning *)

Module Text.

Definition TAB : ascii := "009"%char.
Definition LF : ascii := "010"%char.

Definition code (c : ascii) : N := N_of_ascii c.

Definition in_range (lo hi : N) (c : ascii) : bool :=
  ((lo <=? code c) && (code c <=? hi))%N.

(** [\d] *)
Definition is_digit : ascii -> bool := in_range 48 57.
(** [[A-Z]] *)
Definition is_upper : ascii -> bool := in_range 65 90.
(** [[A-Z0-9]] *)
Definition is_upper_digit (c : ascii) : bool := is_upper c || is_digit c.
(** [[A-Z_]] *)
Definition is_upper_underscore (c : ascii) : bool :=
  is_upper c || Ascii.eqb c "_".
(** [[^\t]] *)
Definition not_tab (c : ascii) : bool := negb (Ascii.eqb c TAB).

(** The longest prefix of [s] whose characters satisfy [p], and what
    follows it: a greedy [p*]. *)
Fixpoint span (p : ascii -> bool) (s : string) : string * string :=
  match s with
  | String c s' =>
      if p c then let '(a, b) := span p s' in (String c a, b)
      else (EmptyString, s)
  | EmptyString => (EmptyString, EmptyString)
  end.

(** A greedy [p+].  In every pattern of the source the class is followed
    by a character outside it, so the greedy match is the only one. *)
Definition many1 (p : ascii -> bool) (s : string) : option (string * string) :=
  match span p s with
  | (EmptyString, _) => None
  | (a, b) => Some (a, b)
  end.

(** A literal: [lit pre s] is what follows [pre] at the start of [s]. *)
Fixpoint lit (pre s : string) : option string :=
  match pre with
  | EmptyString => Some s
  | String c pre' =>
      match s with
      | String d s' => if Ascii.eqb c d then lit pre' s' else None
      | EmptyString => None
      end
  end.

Definition tab (s : string) : option string := lit (String TAB EmptyString) s.

(** [\d+] *)
Definition digits (s : string) : option (string * string) := many1 is_digit s.

(** [\d+\.\d+], the two groups of digits *)
Definition decimal (s : string) : option (string * string * string) :=
  '(ip, s) ← digits s;
  s ← lit "." s;
  '(fp, s) ← digits s;
  Some (ip, fp, s).

Definition digit_val (c : ascii) : Z := Z.of_N (code c) - 48.

Fixpoint digits_val (acc : Z) (s : string) : Z :=
  match s with
  | EmptyString => acc
  | String c s' => digits_val (10 * acc + digit_val c) s'
  end.

(** The line without its final line feed, when it has one. *)
Fixpoint chomp (s : string) : option string :=
  match s with
  | EmptyString => None
  | String c EmptyString => if Ascii.eqb c LF then Some EmptyString else None
  | String c s' => String c <$> chomp s'
  end.

(** [str.split(sep)] for a separator of one character. *)
Fixpoint split (sep : ascii) (s : string) : list string :=
  match s with
  | EmptyString => [EmptyString]
  | String c s' =>
      if Ascii.eqb c sep then EmptyString :: split sep s'
      else match split sep s' with
           | f :: fs => String c f :: fs
           | [] => [String c EmptyString]
           end
  end.

Fixpoint forallb_str (p : ascii -> bool) (s : string) : bool :=
  match s with
  | EmptyString => true
  | String c s' => p c && forallb_str p s'
  end.

Definition lower_char (c : ascii) : ascii :=
  if is_upper c then ascii_of_N (code c + 32) else c.

(** [str.lower()] on the labels the patterns admit *)
Fixpoint lower (s : string) : string :=
  match s with
  | EmptyString => EmptyString
  | String c s' => String (lower_char c) (lower s')
  end.

(** Fields joined by tabs, and a line of fields. *)
Fixpoint join_tab (fs : list string) : string :=
  match fs with
  | [] => EmptyString
  | [f] => f
  | f :: fs' => f +:+ String TAB (join_tab fs')
  end.

Definition line (fs : list string) : string :=
  join_tab fs +:+ String LF EmptyString.

End Text.

(** ** Numbers of the interpreter *)

Module Py.

Import Text.

(** Exceptions the modelled code can raise.  [OutsideModel] is not one of
    them: it marks an input the embedding does not cover (a sensor id that
    is not a literal of the pattern language, a circumference spelled
    [inf] or [nan]). *)
Inductive exn :=
  | KeyError | IndexError | ValueError | UnboundLocalError | OutsideModel.

Inductive outcome (A : Type) :=
  | Returned (a : A)
  | Raised (e : exn).
Arguments Returned {A} a.
Arguments Raised {A} e.

#[global] Instance outcome_ret : MRet outcome := @Returned.
#[global] Instance outcome_bind : MBind outcome := fun A B f m =>
  match m with
  | Returned a => f a
  | Raised e => Raised e
  end.

(** Round half to even, as [round] and [datetime.fromtimestamp] do. *)
Definition round_half_even (q : Q) : Z :=
  let n := Qnum q in
  let d := Zpos (Qden q) in
  let f := (n / d)%Z in
  match (2 * (n mod d) ?= d)%Z with
  | Lt => f
  | Gt => (f + 1)%Z
  | Eq => if Z.even f then f else (f + 1)%Z
  end.

(** [round(x, 6)] *)
Definition round6 (x : Q) : Q :=
  Qred (round_half_even (x * inject_Z 1000000) # 1000000).

(** [datetime.fromtimestamp(t)]: a datetime is its count of microseconds
    since the epoch; the shift to local time and the range of years that a
    datetime can hold are left out. *)
Definition datetime := Z.
Definition fromtimestamp (t : Q) : datetime :=
  round_half_even (t * inject_Z 1000000).

(** [int(s)] for a group matched by [\d+]; the interpreter's cap on the
    length of a numeral is left out. *)
Definition int_of_digits (s : string) : Z := digits_val 0 s.

(** [float(s)] for a group matched by [\d+\.\d+], given as its two runs
    of digits *)
Definition float_of_decimal (d : string * string) : Q :=
  let '(ip, fp) := d in
  Qred (digits_val 0 (ip +:+ fp) # Z.to_pos (10 ^ Z.of_nat (String.length fp))).

(** White space that [int] and [float] strip. *)
Definition is_space (c : ascii) : bool :=
  in_range 9 13 c || in_range 28 32 c || (code c =? 133)%N || (code c =? 160)%N.

Fixpoint lstrip (s : string) : string :=
  match s with
  | String c s' => if is_space c then lstrip s' else s
  | EmptyString => EmptyString
  end.

Fixpoint rstrip (s : string) : string :=
  match s with
  | EmptyString => EmptyString
  | String c s' =>
      match rstrip s' with
      | EmptyString => if is_space c then EmptyString else String c EmptyString
      | t => String c t
      end
  end.

Definition strip (s : string) : string := rstrip (lstrip s).

Definition sign (s : string) : Z * string :=
  match s with
  | String "-" s' => ((-1)%Z, s')
  | String "+" s' => (1%Z, s')
  | _ => (1%Z, s)
  end.

(** After a digit: [(_? digit)*], the digits kept and what follows. *)
Fixpoint digitpart_tail (s : string) : string * string :=
  match s with
  | String c s' =>
      if is_digit c then
        let '(a, b) := digitpart_tail s' in (String c a, b)
      else if Ascii.eqb c "_" then
        match s' with
        | String d s'' =>
            if is_digit d then
              let '(a, b) := digitpart_tail s'' in (String d a, b)
            else (EmptyString, s)
        | EmptyString => (EmptyString, s)
        end
      else (EmptyString, s)
  | EmptyString => (EmptyString, EmptyString)
  end.

(** [digit (_? digit)*] *)
Definition digitpart (s : string) : option (string * string) :=
  match s with
  | String c s' =>
      if is_digit c then
        let '(a, b) := digitpart_tail s' in Some (String c a, b)
      else None
  | EmptyString => None
  end.

(** [int(s)] for any text, base ten ([None]: ValueError). *)
Definition int (s : string) : option Z :=
  let '(sg, s) := sign (strip s) in
  '(ds, rest) ← digitpart s;
  match rest with
  | EmptyString => Some (sg * digits_val 0 ds)%Z
  | _ => None
  end.

Inductive float_parse :=
  | Finite (q : Q)
  | NonFinite
  | NotFloat.

(** The exponent part, when there is one: [(e|E) sign? digitpart]. *)
Definition exponent (s : string) : option (Z * string) :=
  match s with
  | String c s' =>
      if Ascii.eqb c "e" || Ascii.eqb c "E" then
        let '(sg, s'') := sign s' in
        '(ds, rest) ← digitpart s'';
        Some ((sg * digits_val 0 ds)%Z, rest)
      else Some (0%Z, s)
  | EmptyString => Some (0%Z, s)
  end.

(** The mantissa, [digitpart? . digitpart] or [digitpart .?], as its
    digits before and after the point. *)
Definition mantissa (s : string) : option (string * string * string) :=
  match digitpart s with
  | Some (ip, rest) =>
      match lit "." rest with
      | Some rest' =>
          match digitpart rest' with
          | Some (fp, rest'') => Some (ip, fp, rest'')
          | None => Some (ip, EmptyString, rest')
          end
      | None => Some (ip, EmptyString, rest)
      end
  | None =>
      rest ← lit "." s;
      '(fp, rest') ← digitpart rest;
      Some (EmptyString, fp, rest')
  end.

Definition is_nonfinite (s : string) : bool :=
  let t := lower s in
  String.eqb t "inf" || String.eqb t "infinity" || String.eqb t "nan".

(** [float(s)] for any text *)
Definition float (s : string) : float_parse :=
  let '(sg, s) := sign (strip s) in
  if is_nonfinite s then NonFinite else
  match mantissa s with
  | Some (ip, fp, rest) =>
      match exponent rest with
      | Some (e, EmptyString) =>
          Finite (Qred (inject_Z sg
                        * (digits_val 0 (ip +:+ fp)
                           # Z.to_pos (10 ^ Z.of_nat (String.length fp)))
                        * Qpower (10 # 1) e))
      | _ => NotFloat
      end
  | None => NotFloat
  end.

End Py.

(** ** The records *)

Module SpeedSensorRecord.
Record t := mk {
  timestamp : Py.datetime;
  value : Q;
  elapsed_time : Q;
  count : Z;
  circumference : Q
}.
End SpeedSensorRecord.

Module PowerSensorRecord.
Record t := mk {
  timestamp : Py.datetime;
  value : Q;
  event_count : Z;
  elapsed_time : Q
}.
End PowerSensorRecord.

(** ** The three loops of [speed] and of [power]

    [speed] and [power] run the same three [while] loops over one file
    cursor: the outer loop (lines 89-126 and 139-173), and in its body the
    loop that finds the data entry (lines 104-117 and 151-165) followed by
    the loop that seeks the next copy (lines 120-125 and 167-172).  The two
    generators differ in the two patterns, in what they keep of the first
    match and in the record they build. *)

Section FirstValue.

Context {G A V R : Type}.
(** [re.search(pattern, l)], the groups of the match *)
Variable pattern : string -> option G.
(** what the outer loop keeps of a match; [None] where it says [continue] *)
Variable entry : G -> option A.
(** [re.search(next_pattern, l)] *)
Variable next_pattern : string -> option V.
(** the record built at lines 112 and 161 *)
Variable build : A -> V -> R.

(** [yield result], then the rest of the run; [result] is the local
    variable of that name, [None] while it is unbound. *)
Definition yield (result : option R) (k : list R * option Py.exn)
  : list R * option Py.exn :=
  match result with
  | None => ([], Some Py.UnboundLocalError)
  | Some r => (r :: k.1, k.2)
  end.

(** The loop that finds the data entry: the match it stops at, if the file
    does not end before, and the lines left to read. *)
Fixpoint find_data (lines : list string) : option V * list string :=
  match lines with
  | [] => (None, [])
  | l :: rest =>
      match next_pattern l with
      | None => find_data rest
      | Some m => (Some m, rest)
      end
  end.

(** [result] after that loop: assigned when a data entry was found. *)
Definition found (a : A) (result : option R) (m : option V) : option R :=
  match m with
  | Some m => Some (build a m)
  | None => result
  end.

(** The loop that seeks the next copy: the lines left to read, after the
    line that matches the announcement pattern. *)
Fixpoint seek_copy (lines : list string) : list string :=
  match lines with
  | [] => []
  | l :: rest =>
      match pattern l with
      | None => seek_copy rest
      | Some _ => rest
      end
  end.

(** The outer loop, from its [readline], with the [result] of the
    iterations before. *)
Equations? loops (result : option R) (lines : list string)
  : list R * option Py.exn by wf (length lines) lt :=
  loops result [] := ([], None);
  loops result (l :: rest) with pattern l ≫= entry := {
    | None := loops result rest;
    | Some a :=
        yield (found a result (find_data rest).1)
          (loops (found a result (find_data rest).1)
             (seek_copy (find_data rest).2)) }.
Proof.
  all: try (simpl; lia).
  assert (Hdata : ∀ ls, length (find_data ls).2 <= length ls).
  { induction ls as [|x ls IH]; simpl; [done|].
    destruct (next_pattern x); simpl; lia. }
  assert (Hcopy : ∀ ls, length (seek_copy ls) <= length ls).
  { induction ls as [|x ls IH]; simpl; [done|].
    destruct (pattern x); simpl; lia. }
  specialize (Hdata rest). specialize (Hcopy (find_data rest).2).
  simpl. lia.
Qed.

End FirstValue.

(** ** The parser *)

Module DashboardRunLog.

Import Text Py.

(** A value of the settings mapping: a string, or the tuple
    [(value, param1, param2)]. *)
Inductive setting :=
  | Scalar (value : string)
  | Triple (value param1 param2 : string).

Definition starts_with (pre l : string) : bool :=
  match lit pre l with Some _ => true | None => false end.

(** [^#\tTime and Date] *)
Definition time_and_date : string := String "#" (String TAB "Time and Date").
(** [^#\tRider and Device Data] *)
Definition rider_and_device : string :=
  String "#" (String TAB "Rider and Device Data").
(** [^###] *)
Definition section_end : string := "###".

Definition nonempty (s : string) : bool :=
  match s with EmptyString => false | _ => true end.

Fixpoint first_lit (alts : list string) (s : string) : option (string * string) :=
  match alts with
  | [] => None
  | a :: alts' =>
      match lit a s with
      | Some s' => Some (a, s')
      | None => first_lit alts' s
      end
  end.

(** Line 53:
    [^#\t\t(?P<label>Start Date|Start Time|Run Number):?\t(?P<value>[^\t]+)\n$] *)
Definition time_entry (l : string) : option (string * setting) :=
  s ← lit "#" l; s ← tab s; s ← tab s;
  '(label, s) ← first_lit ["Start Date"; "Start Time"; "Run Number"] s;
  s ← tab (default s (lit ":" s));
  value ← chomp s;
  if nonempty value && forallb_str not_tab value
  then Some (lower label, Scalar value) else None.

(** Line 66:
    [^#\t\t(?P<label>[A-Z_]+)\t(?P<value>[^\t]+)(?:\t(?P<param1>[^\t]+)\t(?P<param2>[^\t]+))?\n$] *)
Definition rider_entry (l : string) : option (string * setting) :=
  s ← lit "#" l; s ← tab s; s ← tab s;
  '(label, s) ← many1 is_upper_underscore s;
  s ← tab s;
  body ← chomp s;
  match split TAB body with
  | [value] =>
      if nonempty value then Some (lower label, Scalar value) else None
  | [value; param1; param2] =>
      if nonempty value && nonempty param1 && nonempty param2
      then Some (lower label, Triple value param1 param2) else None
  | _ => None
  end.

(** Lines 45-48 and 58-61: read up to and including the marker line. *)
Fixpoint skip_to (marker : string) (lines : list string) : list string :=
  match lines with
  | [] => []
  | l :: rest => if starts_with marker l then rest else skip_to marker rest
  end.

(** Lines 49-56 and 62-72: read entries up to and including the [###]
    line; a line of another shape is passed over. *)
Fixpoint read_section (entry : string -> option (string * setting))
    (data : gmap string setting) (lines : list string)
  : gmap string setting * list string :=
  match lines with
  | [] => (data, [])
  | l :: rest =>
      if starts_with section_end l then (data, rest)
      else match entry l with
           | None => read_section entry data rest
           | Some (label, v) => read_section entry (<[label:=v]> data) rest
           end
  end.

(** The [settings] property.  Nothing in it raises. *)
Definition settings (lines : list string) : outcome (gmap string setting) :=
  let rest := skip_to time_and_date lines in
  let '(data, rest) := read_section time_entry ∅ rest in
  let rest := skip_to rider_and_device rest in
  let '(data, _) := read_section rider_entry data rest in
  Returned data.

(** [settings[key]] *)
Definition getitem (data : gmap string setting) (key : string) : outcome setting :=
  match data !! key with
  | Some v => Returned v
  | None => Raised KeyError
  end.

(** [v[i]]: an item of the tuple, or a character of the string. *)
Definition index (v : setting) (i : nat) : outcome string :=
  match v with
  | Triple value param1 param2 =>
      match i with
      | 0 => Returned value
      | 1 => Returned param1
      | 2 => Returned param2
      | _ => Raised IndexError
      end
  | Scalar s =>
      match String.get i s with
      | Some c => Returned (String c EmptyString)
      | None => Raised IndexError
      end
  end.

(** [_, sensor_id = s.split('_')] *)
Definition sensor_id_of (s : string) : outcome string :=
  match split "_" s with
  | [_; sensor_id] => Returned sensor_id
  | _ => Raised ValueError
  end.

(** Characters that are not literals in a pattern. *)
Definition is_special (c : ascii) : bool :=
  existsb (Ascii.eqb c)
    ["."; "^"; "$"; "*"; "+"; "?"; "{"; "}"; "["; "]"; "\"; "|"; "("; ")"]%char.

(** The patterns are built by pasting the sensor id into their text; the
    functions below read the id as a literal, which it is when it holds no
    special character. *)
Definition literal_id (sensor_id : string) : outcome string :=
  if forallb_str (fun c => negb (is_special c)) sensor_id
  then Returned sensor_id else Raised OutsideModel.

(** [^[A-Z0-9]+_{sensor_id}\t], the start of the three first patterns *)
Definition sensor_key (sensor_id l : string) : option string :=
  '(_, s) ← many1 is_upper_digit l;
  s ← lit "_" s;
  s ← lit sensor_id s;
  tab s.

(** Lines 86 and 190:
    [^[A-Z0-9]+_{sensor_id}\t(?P<timestamp>\d+\.\d+)\tS\t0\t(?P<timer>\d+)\t(?P<count>\d+)\t\t];
    the groups [timer] and [count]. *)
Definition speed_pattern (sensor_id l : string) : option (string * string) :=
  s ← sensor_key sensor_id l;
  '(_, _, s) ← decimal s;
  s ← tab s; s ← lit "S" s; s ← tab s; s ← lit "0" s; s ← tab s;
  '(timer, s) ← digits s;
  s ← tab s;
  '(count, s) ← digits s;
  s ← tab s; _ ← tab s;
  Some (timer, count).

(** The tail [\t(?P<timestamp>\d+\.\d+)\t(?P<x>\d+\.\d+)\n] of the three
    second patterns, after the sensor id; the groups as runs of digits. *)
Definition value_tail (s : string)
  : option ((string * string) * (string * string)) :=
  s ← tab s;
  '(ti, tf, s) ← decimal s;
  s ← tab s;
  '(vi, vf, s) ← decimal s;
  _ ← lit (String LF EmptyString) s;
  Some ((ti, tf), (vi, vf)).

(** Line 87:
    [^SPEED\t[A-Z0-9]+_{sensor_id}\t(?P<timestamp>\d+\.\d+)\t(?P<speed>\d+\.\d+)\n] *)
Definition speed_next_pattern (sensor_id l : string)
  : option ((string * string) * (string * string)) :=
  s ← lit "SPEED" l; s ← tab s;
  '(_, s) ← many1 is_upper_digit s;
  s ← lit "_" s;
  s ← lit sensor_id s;
  value_tail s.

(** Line 136:
    [^[A-Z0-9]+_{sensor_id}\t(?P<timestamp>\d+\.\d+)\tS\t(?P<event_count>\d+)\t(?P<elapsed_time>\d+)\t(?P<torque_ticks>\d+)\t(?P<slope>\d+)\t];
    the groups [event_count] and [elapsed_time]. *)
Definition power_pattern (sensor_id l : string) : option (string * string) :=
  s ← sensor_key sensor_id l;
  '(_, _, s) ← decimal s;
  s ← tab s; s ← lit "S" s; s ← tab s;
  '(event_count, s) ← digits s;
  s ← tab s;
  '(elapsed_time, s) ← digits s;
  s ← tab s;
  '(_, s) ← digits s;
  s ← tab s;
  '(_, s) ← digits s;
  _ ← tab s;
  Some (event_count, elapsed_time).

(** Line 137:
    [^POWER\t[A-Z0-9]+_{sensor_id}\t(?P<timestamp>\d+\.\d+)\t(?P<power>\d+\.\d+)\n] *)
Definition power_next_pattern (sensor_id l : string)
  : option ((string * string) * (string * string)) :=
  s ← lit "POWER" l; s ← tab s;
  '(_, s) ← many1 is_upper_digit s;
  s ← lit "_" s;
  s ← lit sensor_id s;
  value_tail s.

(** Line 191:
    [^CG_SPEED_[A-Z0-9]+_{sensor_id}\t(?P<timestamp>\d+\.\d+)\t(?P<speed>\d+\.\d+)\n] *)
Definition cg_next_pattern (sensor_id l : string)
  : option ((string * string) * (string * string)) :=
  s ← lit "CG_SPEED_" l;
  '(_, s) ← many1 is_upper_digit s;
  s ← lit "_" s;
  s ← lit sensor_id s;
  value_tail s.

(** Lines 83-84 and 187-188, on the mapping that [self.settings] gave. *)
Definition speed_params (data : gmap string setting) : outcome (string * Q) :=
  v ← getitem data "speed";
  s ← index v 0;
  sensor_id ← sensor_id_of s;
  c ← index v 1;
  circumference ←
    match float c with
    | Finite q => Returned q
    | NonFinite => Raised OutsideModel
    | NotFloat => Raised ValueError
    end;
  sensor_id ← literal_id sensor_id;
  Returned (sensor_id, circumference).

(** Lines 82-84 and 186-188. *)
Definition speed_settings (lines : list string) : outcome (string * Q) :=
  data ← settings lines;
  speed_params data.

(** Lines 133-134; [offset] is the integer at [settings['power'][1]]. *)
Definition power_params (data : gmap string setting) : outcome (string * Z) :=
  v ← getitem data "power";
  s ← index v 0;
  sensor_id ← sensor_id_of s;
  o ← index v 1;
  offset ← match int o with Some z => Returned z | None => Raised ValueError end;
  sensor_id ← literal_id sensor_id;
  Returned (sensor_id, offset).

(** Lines 132-134. *)
Definition power_settings (lines : list string) : outcome (string * Z) :=
  data ← settings lines;
  power_params data.

(** Lines 97-100: [rev_count], [meas_time], and [continue] when the timer
    is zero.  (Line 101 computes a local [speed] that nothing reads.) *)
Definition speed_entry (g : string * string) : option (Z * Z) :=
  let '(timer, count) := g in
  let rev_count := int_of_digits count in
  let meas_time := int_of_digits timer in
  if (meas_time =? 0)%Z then None else Some (meas_time, rev_count).

(** Lines 112-116 and 217-221. *)
Definition speed_record (circumference : Q) (a : Z * Z)
    (m : (string * string) * (string * string)) : SpeedSensorRecord.t :=
  let '(meas_time, rev_count) := a in
  SpeedSensorRecord.mk
    (fromtimestamp (float_of_decimal m.1))
    (float_of_decimal m.2)
    (round6 (inject_Z meas_time / inject_Z 1024)%Q)
    rev_count
    circumference.

(** Lines 145-149: [continue] when the group [event_count] is the text
    [0]; else [event_count] and the unrounded [elapsed_time]. *)
Definition power_entry (g : string * string) : option (Z * Q) :=
  let '(event_count, elapsed_time) := g in
  if String.eqb event_count "0" then None
  else Some (int_of_digits event_count,
             (inject_Z (int_of_digits elapsed_time) * (5 # 10000))%Q).

(** Lines 159-164. *)
Definition power_record (a : Z * Q)
    (m : (string * string) * (string * string)) : PowerSensorRecord.t :=
  let '(event_count, elapsed_time) := a in
  PowerSensorRecord.mk
    (fromtimestamp (float_of_decimal m.1))
    (float_of_decimal m.2)
    event_count
    (round6 elapsed_time).

Definition raised {R : Type} (e : exn) : list R * option exn := ([], Some e).

(** The loops of [speed]. *)
Definition speed_loops (sensor_id : string) (circumference : Q) :=
  loops (speed_pattern sensor_id) speed_entry
    (speed_next_pattern sensor_id) (speed_record circumference).

(** The generator [speed], run to its end. *)
Definition speed (lines : list string)
  : list SpeedSensorRecord.t * option exn :=
  match speed_settings lines with
  | Raised e => raised e
  | Returned (sensor_id, circumference) =>
      speed_loops sensor_id circumference None lines
  end.

(** The loops of [power]. *)
Definition power_loops (sensor_id : string) :=
  loops (power_pattern sensor_id) power_entry
    (power_next_pattern sensor_id) power_record.

(** The generator [power], run to its end. *)
Definition power (lines : list string)
  : list PowerSensorRecord.t * option exn :=
  match power_settings lines with
  | Raised e => raised e
  | Returned (sensor_id, offset) => power_loops sensor_id None lines
  end.

(** The inner loop of [cg_speed] (lines 208-221): [result] when it ends,
    and the lines left to read.  It ends at the end of the file, or, once a
    record is held, at a line that matches the announcement pattern. *)
Fixpoint keep_latest (sensor_id : string) (circumference : Q) (a : Z * Z)
    (result : option SpeedSensorRecord.t) (lines : list string)
  : option SpeedSensorRecord.t * list string :=
  match lines with
  | [] => (result, [])
  | l :: rest =>
      match result, speed_pattern sensor_id l with
      | Some _, Some _ => (result, rest)
      | _, _ =>
          match cg_next_pattern sensor_id l with
          | None => keep_latest sensor_id circumference a result rest
          | Some m =>
              keep_latest sensor_id circumference a
                (Some (speed_record circumference a m)) rest
          end
      end
  end.

(** The outer loop of [cg_speed] (lines 194-224), from its [readline]. *)
Equations? cg_loops (sensor_id : string) (circumference : Q)
    (lines : list string)
  : list SpeedSensorRecord.t * option exn by wf (length lines) lt :=
  cg_loops sensor_id circumference [] := ([], None);
  cg_loops sensor_id circumference (l :: rest)
    with speed_pattern sensor_id l ≫= speed_entry := {
    | None := cg_loops sensor_id circumference rest;
    | Some a
        with (keep_latest sensor_id circumference a None rest).1 := {
        | None := ([], None);
        | Some r :=
            let k := cg_loops sensor_id circumference
                       (keep_latest sensor_id circumference a None rest).2 in
            (r :: k.1, k.2) } }.
Proof.
  all: try (simpl; lia).
  assert (Hlatest : ∀ a ls result,
            length (keep_latest sensor_id circumference a result ls).2
            <= length ls).
  { intros a.
    induction ls as [|x ls IH]; intros result; simpl; [done|].
    destruct result, (speed_pattern sensor_id x),
      (cg_next_pattern sensor_id x); simpl;
      try lia; (etrans; [apply IH|lia]). }
  specialize (Hlatest (z, z0) rest None). simpl. lia.
Qed.

(** The generator [cg_speed], run to its end. *)
Definition cg_speed (lines : list string)
  : list SpeedSensorRecord.t * option exn :=
  match speed_settings lines with
  | Raised e => raised e
  | Returned (sensor_id, circumference) =>
      cg_loops sensor_id circumference lines
  end.

End DashboardRunLog.

(** ** The merge of [main] *)

Module Main.

Import Py DashboardRunLog.

(** An element of [list(speed) + list(power)]. *)
Inductive record :=
  | Speed (x : SpeedSensorRecord.t)
  | Power (x : PowerSensorRecord.t).

(** [lambda x: x.timestamp] *)
Definition timestamp (x : record) : datetime :=
  match x with
  | Speed r => SpeedSensorRecord.timestamp r
  | Power r => PowerSensorRecord.timestamp r
  end.

(** [sorted(records, key=...)] is a stable sort; every stable sort gives
    the same list, here the one of insertion from the right. *)
Fixpoint insert {A : Type} (key : A -> Z) (x : A) (l : list A) : list A :=
  match l with
  | [] => [x]
  | y :: l' =>
      if (key x <=? key y)%Z then x :: y :: l' else y :: insert key x l'
  end.

Fixpoint sorted {A : Type} (key : A -> Z) (l : list A) : list A :=
  match l with
  | [] => []
  | x :: l' => insert key x (sorted key l')
  end.

(** [list(g)]: the records of a generator, or the exception that ends it *)
Definition list_of {R : Type} (g : list R * option exn) : outcome (list R) :=
  match g.2 with
  | None => Returned g.1
  | Some e => Raised e
  end.

(** Lines 251-254 of [main]: the records that the table is printed from,
    in the order of its rows. *)
Definition main (lines : list string) : outcome (list record) :=
  speed ← list_of (speed lines);
  power ← list_of (power lines);
  Returned (sorted timestamp (map Speed speed ++ map Power power)).

End Main.

(** ** What the specification counts and pairs

    The two definitions below follow the words of the specification, not
    the code; the extractors are compared with them. *)

Module Spec.

Section Intervals.

Context {G A V : Type}.
Variable pattern : string -> option G.
Variable entry : G -> option A.
Variable next_pattern : string -> option V.

(** The next line that matches either pattern is a broadcast line. *)
Fixpoint broadcast_follows (lines : list string) : bool :=
  match lines with
  | [] => false
  | l :: rest =>
      match next_pattern l, pattern l with
      | Some _, _ => true
      | None, Some _ => false
      | None, None => broadcast_follows rest
      end
  end.

(** The number of valid announcement+broadcast intervals: announcement
    lines that the channel accepts and that a broadcast line follows. *)
Fixpoint valid_intervals (lines : list string) : nat :=
  match lines with
  | [] => 0
  | l :: rest =>
      match pattern l ≫= entry with
      | Some _ => if broadcast_follows rest then S (valid_intervals rest)
                  else valid_intervals rest
      | None => valid_intervals rest
      end
  end.

(** Every broadcast line paired with the announcement line that
    immediately precedes it, when the channel accepts that one. *)
Fixpoint nearest_pairs (last : option G) (lines : list string) : list (A * V) :=
  match lines with
  | [] => []
  | l :: rest =>
      match pattern l with
      | Some g => nearest_pairs (Some g) rest
      | None =>
          match next_pattern l, last ≫= entry with
          | Some v, Some a => (a, v) :: nearest_pairs last rest
          | _, _ => nearest_pairs last rest
          end
      end
  end.

End Intervals.

End Spec.

(** ** Sample files *)

Module Sample.

Import Text.

(** A header that announces speed sensor [BSPD_12345] with circumference
    2.105 and power meter [PWR_777] with offset 512. *)
Definition header : list string :=
  [ line ["#"; "Time and Date"];
    line ["#"; ""; "Start Date:"; "2023-11-14"];
    line ["###"];
    line ["#"; "Rider and Device Data"];
    line ["#"; ""; "SPEED"; "BSPD_12345"; "2.105"; "0"];
    line ["#"; ""; "POWER"; "PWR_777"; "512"; "0"];
    line ["###"] ].

Definition speed_announcement (ts timer count : string) : string :=
  line ["BSPD_12345"; ts; "S"; "0"; timer; count; ""; ""].

Definition speed_broadcast (ts v : string) : string :=
  line ["SPEED"; "BSPD_12345"; ts; v].

Definition cg_broadcast (ts v : string) : string :=
  line ["CG_SPEED_BSPD_12345"; ts; v].

Definition power_announcement (ts event_count elapsed : string) : string :=
  line ["PWR_777"; ts; "S"; event_count; elapsed; "100"; "200"; ""].

Definition power_broadcast (ts v : string) : string :=
  line ["POWER"; "PWR_777"; ts; v].

(** Two speed intervals, each an announcement and its broadcast. *)
Definition two_intervals : list string :=
  header ++
  [ speed_announcement "1700000000.1" "2048" "50";
    speed_broadcast "1700000000.5" "9.876500";
    speed_announcement "1700000002.1" "1024" "55";
    speed_broadcast "1700000002.5" "10.500000" ].

(** Two announcements before one broadcast. *)
Definition late_broadcast : list string :=
  header ++
  [ speed_announcement "1700000000.1" "1024" "10";
    speed_announcement "1700000001.1" "2048" "20";
    speed_broadcast "1700000001.5" "5.000000" ].

(** An announcement with no broadcast before the end of the file. *)
Definition truncated : list string :=
  header ++ [ speed_announcement "1700000000.1" "1024" "10" ].

(** A complete interval, then an announcement with no broadcast before the
    end of the file. *)
Definition truncated_second : list string :=
  header ++
  [ speed_announcement "1700000000.1" "2048" "50";
    speed_broadcast "1700000000.5" "9.876500";
    speed_announcement "1700000000.6" "2048" "50";
    speed_announcement "1700000002.1" "1024" "55" ].

(** Two center-of-gravity intervals. *)
Definition two_cg_intervals : list string :=
  header ++
  [ speed_announcement "1700000000.1" "2048" "50";
    cg_broadcast "1700000000.5" "9.800000";
    cg_broadcast "1700000000.5" "9.900000";
    speed_announcement "1700000002.1" "1024" "55";
    cg_broadcast "1700000002.5" "10.500000" ].

(** The scenario of the specification: one announcement, three copies of
    its broadcast, a new announcement. *)
Definition scenario : list string :=
  header ++
  [ speed_announcement "1700000000.1" "2048" "50";
    speed_broadcast "1700000000.5" "9.876500";
    speed_broadcast "1700000000.5" "9.876500";
    speed_broadcast "1700000000.5" "9.876500";
    speed_announcement "1700000002.1" "1024" "51" ].

(** Broadcast lines whose timestamps go back in time. *)
Definition backwards : list string :=
  header ++
  [ speed_announcement "1700000005.1" "2048" "50";
    speed_broadcast "1700000005.5" "9.000000";
    speed_announcement "1700000005.6" "2048" "50";
    speed_announcement "1700000001.1" "1024" "51";
    speed_broadcast "1700000001.5" "8.000000" ].

(** A body with no header at all. *)
Definition headless : list string :=
  [ speed_announcement "1700000000.1" "2048" "50";
    speed_broadcast "1700000000.5" "9.876500" ].

(** Power: a tick with event count 0, then a counted one. *)
Definition power_ticks : list string :=
  header ++
  [ power_announcement "1700000000.1" "0" "4000";
    power_broadcast "1700000000.2" "111.000000";
    power_announcement "1700000001.1" "7" "4000";
    power_broadcast "1700000001.2" "250.500000" ].

(** [header] with another offset for the power meter. *)
Definition power_ticks_offset (offset : string) : list string :=
  [ line ["#"; "Time and Date"];
    line ["#"; ""; "Start Date:"; "2023-11-14"];
    line ["###"];
    line ["#"; "Rider and Device Data"];
    line ["#"; ""; "SPEED"; "BSPD_12345"; "2.105"; "0"];
    line ["#"; ""; "POWER"; "PWR_777"; offset; "0"];
    line ["###"];
    power_announcement "1700000001.1" "7" "4000";
    power_broadcast "1700000001.2" "250.500000" ].

End Sample.

(** ** Vocabulary of the properties *)

Section FirstValueTerms.

Context {G A V R : Type}.
Variable pattern : string -> option G.
Variable entry : G -> option A.
Variable next_pattern : string -> option V.
Variable build : A -> V -> R.

(** The three loops as one machine over the lines, for the proofs: the
    cursor says which [readline] is about to run, the one of the outer loop
    (lines 90 and 140), of the loop that finds the data entry (lines 105 and
    152), or of the loop that seeks the next copy (lines 121 and 168). *)
Inductive cursor :=
  | FindEntry
  | FindData (a : A)
  | SeekCopy.

Fixpoint first_value (at_ : cursor) (result : option R) (lines : list string)
  : list R * option Py.exn :=
  match lines with
  | [] =>
      match at_ with
      | FindEntry => ([], None)
      | FindData _ | SeekCopy => yield result ([], None)
      end
  | l :: rest =>
      match at_ with
      | FindEntry =>
          match pattern l with
          | None => first_value FindEntry result rest
          | Some g =>
              match entry g with
              | None => first_value FindEntry result rest
              | Some a => first_value (FindData a) result rest
              end
          end
      | FindData a =>
          match next_pattern l with
          | None => first_value (FindData a) result rest
          | Some v => first_value SeekCopy (Some (build a v)) rest
          end
      | SeekCopy =>
          match pattern l with
          | None => first_value SeekCopy result rest
          | Some _ => yield result (first_value FindEntry result rest)
          end
      end
  end.

(** The interval ends at the end of the file or at a line that matches
    the announcement pattern. *)
Definition closes (tail : list string) : Prop :=
  match tail with
  | [] => True
  | t :: _ => pattern t ≠ None
  end.

(** Where a record comes from: an accepted announcement line, and the first
    data entry after it. *)
Definition paired (lines : list string) (r : R) : Prop :=
  ∃ pre l mid v post g a m,
    lines = pre ++ l :: mid ++ v :: post
    ∧ pattern l = Some g ∧ entry g = Some a
    ∧ Forall (λ x, next_pattern x = None) mid
    ∧ next_pattern v = Some m
    ∧ r = build a m.

(** The announcement kept by the loop that finds the data entry is in the
    lines read so far, with no data entry after it. *)
Definition opened (read : list string) (at_ : cursor) : Prop :=
  match at_ with
  | FindData a =>
      ∃ pre l mid g,
        read = pre ++ l :: mid
        ∧ pattern l = Some g ∧ entry g = Some a
        ∧ Forall (λ x, next_pattern x = None) mid
  | _ => True
  end.

End FirstValueTerms.

Arguments FindEntry {A}.
Arguments SeekCopy {A}.

Section Machines.

Import Py DashboardRunLog.

(** The loops of [speed] and of [power] as machines. *)
Definition speed_loop (sensor_id : string) (circumference : Q) :=
  first_value (speed_pattern sensor_id) speed_entry
    (speed_next_pattern sensor_id) (speed_record circumference).

Definition power_loop (sensor_id : string) :=
  first_value (power_pattern sensor_id) power_entry
    (power_next_pattern sensor_id) power_record.

(** The two loops of [cg_speed] as one machine: the cursor is at the
    [readline] of the outer loop (line 195) or at the one of the inner loop
    (line 209), with the [result] held there. *)
Inductive cg_cursor :=
  | CgFindEntry
  | CgLatest (a : Z * Z) (result : option SpeedSensorRecord.t).

Fixpoint cg_speed_loop (sensor_id : string) (circumference : Q)
    (at_ : cg_cursor) (lines : list string)
  : list SpeedSensorRecord.t * option exn :=
  match lines with
  | [] =>
      match at_ with
      | CgFindEntry => ([], None)
      | CgLatest _ None => ([], None)
      | CgLatest _ (Some r) => ([r], None)
      end
  | l :: rest =>
      match at_ with
      | CgFindEntry =>
          match speed_pattern sensor_id l with
          | None => cg_speed_loop sensor_id circumference CgFindEntry rest
          | Some g =>
              match speed_entry g with
              | None => cg_speed_loop sensor_id circumference CgFindEntry rest
              | Some a =>
                  cg_speed_loop sensor_id circumference (CgLatest a None) rest
              end
          end
      | CgLatest a result =>
          match result, speed_pattern sensor_id l with
          | Some r, Some _ =>
              let k := cg_speed_loop sensor_id circumference CgFindEntry rest in
              (r :: k.1, k.2)
          | _, _ =>
              match cg_next_pattern sensor_id l with
              | None =>
                  cg_speed_loop sensor_id circumference (CgLatest a result) rest
              | Some m =>
                  cg_speed_loop sensor_id circumference
                    (CgLatest a (Some (speed_record circumference a m))) rest
              end
          end
      end
  end.

End Machines.

Section CgTerms.

Import Py DashboardRunLog.

Variable sensor_id : string.
Variable circumference : Q.

(** The working record after reading [body]: the one of its last data
    entry, or the one held before. *)
Definition latest (a : Z * Z) (result : option SpeedSensorRecord.t)
    (body : list string) : option SpeedSensorRecord.t :=
  match last (omap (cg_next_pattern sensor_id) body) with
  | Some m => Some (speed_record circumference a m)
  | None => result
  end.

(** The interval ends at the end of the file or at a line that matches
    the announcement pattern. *)
Definition cg_closes (tail : list string) : Prop :=
  match tail with
  | [] => True
  | t :: _ => speed_pattern sensor_id t ≠ None
  end.

(** Where a record of [cg_speed] comes from: an accepted announcement line
    and a data entry after it. *)
Definition cg_paired (lines : list string) (r : SpeedSensorRecord.t) : Prop :=
  ∃ pre l mid v post g a m,
    lines = pre ++ l :: mid ++ v :: post
    ∧ speed_pattern sensor_id l = Some g ∧ speed_entry g = Some a
    ∧ cg_next_pattern sensor_id v = Some m
    ∧ r = speed_record circumference a m.

(** What the inner loop of [cg_speed] holds, in terms of the lines read so
    far. *)
Definition cg_opened (read : list string) (at_ : cg_cursor) : Prop :=
  match at_ with
  | CgFindEntry => True
  | CgLatest a result =>
      (∃ pre l mid g,
         read = pre ++ l :: mid
         ∧ speed_pattern sensor_id l = Some g ∧ speed_entry g = Some a)
      ∧ ∀ r, result = Some r → cg_paired read r
  end.

End CgTerms.

(** The sensor id holds no underscore, as what [split('_')] returns. *)
Definition no_underscore (s : string) : bool :=
  Text.forallb_str (λ c, negb (Ascii.eqb c "_")) s.

Section SettingsTerms.

Import Text Py DashboardRunLog.

(** The mapping that [settings] returns. *)
Definition settings_data (lines : list string) : gmap string setting :=
  match settings lines with
  | Returned data => data
  | Raised _ => ∅
  end.

(** A line that is neither a section marker, nor the end of a section, nor
    an entry of either section. *)
Definition shapeless (l : string) : Prop :=
  starts_with time_and_date l = false
  ∧ starts_with rider_and_device l = false
  ∧ starts_with section_end l = false
  ∧ time_entry l = None
  ∧ rider_entry l = None.

(** A field of a settings line: not empty, no tab in it. *)
Definition field (s : string) : bool := nonempty s && forallb_str not_tab s.

(** The settings line of the power meter: sensor, offset and a second
    parameter. *)
Definition power_line (sensor offset param2 : string) : string :=
  line ["#"; ""; "POWER"; sensor; offset; param2].

(** Two files that are the same, or the same but for the lines [o1] of
    the one where the other has the lines [o2]. *)
Definition same_but (o1 o2 : list string) (x y : list string) : Prop :=
  x = y ∨ ∃ p q, x = p ++ o1 ++ q ∧ y = p ++ o2 ++ q.

(** What [power] takes from [settings['power']]: the sensor id, or the
    exception of lines 133-134. *)
Definition power_sensor (data : gmap string setting) : outcome string :=
  match power_params data with
  | Returned (sensor_id, _) => Returned sensor_id
  | Raised e => Raised e
  end.

(** The timestamp that a data entry gives its record. *)
Definition stamp (m : (string * string) * (string * string)) : datetime :=
  fromtimestamp (float_of_decimal m.1).

(** The timestamps of the data entries of a file, in the order of the
    file. *)
Definition value_stamps {V : Type} (next_pattern : string → option V)
    (stamp : V → datetime) (lines : list string) : list datetime :=
  omap (λ l, stamp <$> next_pattern l) lines.

End SettingsTerms.

(** ** The table of [to_df] *)

Module Table.

Import Py DashboardRunLog Main.

(** A row of the data frame: its index and its three columns.  The index
    is written with [strftime('%F %T.%f')] and read back with
    [pd.to_datetime], which gives the datetime again, to the microsecond. *)
Record row := mk {
  index : datetime;
  sensor : string;
  value : Q;
  elapsed_time : Q
}.

Definition speed_row (tag : string) (x : SpeedSensorRecord.t) : row :=
  mk (SpeedSensorRecord.timestamp x) tag (SpeedSensorRecord.value x)
     (SpeedSensorRecord.elapsed_time x).

Definition power_row (x : PowerSensorRecord.t) : row :=
  mk (PowerSensorRecord.timestamp x) "power" (PowerSensorRecord.value x)
     (PowerSensorRecord.elapsed_time x).

(** Lines 228-245: the three generators are run in turn, [speed], then
    [cg_speed], then [power]; [pd.concat] puts their frames one after the
    other. *)
Definition to_df (lines : list string) : outcome (list row) :=
  speed ← list_of (speed lines);
  cg_speed ← list_of (cg_speed lines);
  power ← list_of (power lines);
  Returned (map (speed_row "speed") speed
            ++ map (speed_row "cg_speed") cg_speed
            ++ map power_row power).

End Table.

(** ** More vocabulary *)

Section BlockTerms.

Context {G A V R : Type}.
Variable pattern : string -> option G.
Variable entry : G -> option A.
Variable next_pattern : string -> option V.
Variable build : A -> V -> R.

(** The number of lines that the outer loop would keep as the start of an
    interval. *)
Fixpoint kept_lines (lines : list string) : nat :=
  match lines with
  | [] => 0
  | l :: rest =>
      match pattern l ≫= entry with
      | Some _ => S (kept_lines rest)
      | None => kept_lines rest
      end
  end.

(** A block of lines that [speed] or [power] reads as one interval, and the
    record of the interval: a kept announcement, lines that are no data
    entry, the data entry, lines that are no announcement, and a closing
    line that matches the announcement pattern. *)
Definition block_of (ls : list string) (r : R) : Prop :=
  ∃ l g a pre v m post t,
    ls = l :: pre ++ v :: post ++ [t]
    ∧ pattern l = Some g ∧ entry g = Some a
    ∧ Forall (λ x, next_pattern x = None) pre
    ∧ next_pattern v = Some m
    ∧ Forall (λ x, pattern x = None) post
    ∧ pattern t ≠ None
    ∧ r = build a m.

(** [result] after the records [rs] were yielded. *)
Definition held (result : option R) (rs : list R) : option R :=
  match last rs with
  | Some r => Some r
  | None => result
  end.

End BlockTerms.

Section CgBlockTerms.

Import Py DashboardRunLog.

Variable sensor_id : string.
Variable circumference : Q.

(** A block of lines that [cg_speed] reads as one interval, and its record:
    a kept announcement, lines that are no announcement and hold at least
    one data entry, of which [m] is the last, and a closing line that
    matches the announcement pattern. *)
Definition cg_block_of (ls : list string) (r : SpeedSensorRecord.t) : Prop :=
  ∃ l g a body m t,
    ls = l :: body ++ [t]
    ∧ speed_pattern sensor_id l = Some g ∧ speed_entry g = Some a
    ∧ Forall (λ x, speed_pattern sensor_id x = None) body
    ∧ last (omap (cg_next_pattern sensor_id) body) = Some m
    ∧ speed_pattern sensor_id t ≠ None
    ∧ r = speed_record circumference a m.

End CgBlockTerms.

Section MoreTerms.

Import Text Py DashboardRunLog.

(** A line of the header, or any line that starts with the same sign. *)
Definition hash_line (l : string) : Prop := starts_with "#" l = true.

(** No capital letter: what [lower()] returns. *)
Definition lower_case (s : string) : bool :=
  forallb_str (λ c, negb (is_upper c)) s.

(** The strings of a value of the mapping. *)
Definition setting_strings (v : setting) : list string :=
  match v with
  | Scalar value => [value]
  | Triple value param1 param2 => [value; param1; param2]
  end.

(** Only decimal digits. *)
Definition all_digits (s : string) : bool := forallb_str is_digit s.

End MoreTerms.

(** * Properties *)

(** ** The loops of [speed] and [power] *)

Section FirstValueFacts.

Context {G A V R : Type}.
Variable pattern : string -> option G.
Variable entry : G -> option A.
Variable next_pattern : string -> option V.
Variable build : A -> V -> R.

Abbreviation run := (first_value pattern entry next_pattern build).
Abbreviation closes := (closes pattern).
Abbreviation paired := (paired pattern entry next_pattern build).
Abbreviation opened := (opened pattern entry next_pattern).

(** While the data entry is sought, lines of any other shape are passed
    over, announcement lines among them. *)
Lemma find_data_passes (a : A) (result : option R) (pre rest : list string) :
  Forall (λ l, next_pattern l = None) pre →
  run (FindData a) result (pre ++ rest) = run (FindData a) result rest.
Proof.
  induction 1 as [|l pre Hl _ IH]; simpl; [done|].
  by rewrite Hl.
Qed.

(** While the next copy is sought, every line that is not an announcement
    is passed over. *)
Lemma seek_copy_passes (result : option R) (post rest : list string) :
  Forall (λ l, pattern l = None) post →
  run SeekCopy result (post ++ rest) = run SeekCopy result rest.
Proof.
  induction 1 as [|l post Hl _ IH]; simpl; [done|].
  by rewrite Hl.
Qed.

(** An accepted announcement, its first data entry and the copies that
    follow give one record; the line that ends the interval is read and the
    outer loop goes on at the line after it. *)
Lemma interval_once (result : option R) (l v : string) (g : G) (a : A) (m : V)
    (pre post tail : list string) :
  pattern l = Some g → entry g = Some a →
  Forall (λ x, next_pattern x = None) pre →
  next_pattern v = Some m →
  Forall (λ x, pattern x = None) post →
  closes tail →
  run FindEntry result (l :: pre ++ v :: post ++ tail)
  = let k := run FindEntry (Some (build a m)) (List.tl tail) in
    (build a m :: k.1, k.2).
Proof.
  intros Hl Ha Hpre Hv Hpost Htail. simpl. rewrite Hl, Ha.
  rewrite find_data_passes by done. simpl. rewrite Hv.
  rewrite seek_copy_passes by done.
  destruct tail as [|t tail]; simpl in *; [done|].
  by destruct (pattern t).
Qed.

(** A line that the outer loop does not keep, and that is no data entry,
    builds no record wherever the scan stands: it is passed over, or it
    ends the interval of the record already built. *)
Lemma rejected_line (result : option R) (l : string) (g : G)
    (rest : list string) :
  pattern l = Some g → entry g = None → next_pattern l = None →
  run FindEntry result (l :: rest) = run FindEntry result rest
  ∧ (∀ a, run (FindData a) result (l :: rest) = run (FindData a) result rest)
  ∧ run SeekCopy result (l :: rest)
    = yield result (run FindEntry result rest).
Proof.
  intros Hl Hg Hn. simpl. by rewrite Hl, Hg, Hn.
Qed.

Lemma paired_app (lines more : list string) (r : R) :
  paired lines r → paired (lines ++ more) r.
Proof.
  intros (pre & l & mid & v & post & g & a & m & -> & ?).
  exists pre, l, mid, v, (post ++ more), g, a, m.
  split; [|done]. by simplify_list_eq.
Qed.

Lemma run_paired (lines read : list string) (at_ : cursor) (result : option R) :
  opened read at_ →
  (∀ r, result = Some r → paired read r) →
  ∀ r, r ∈ (run at_ result lines).1 → paired (read ++ lines) r.
Proof.
  revert read at_ result.
  induction lines as [|x lines IH]; intros read at_ result Hat Hres r.
  - rewrite app_nil_r.
    destruct at_; simpl; [by intros ?%elem_of_nil| |];
      (destruct result as [r'|]; simpl; [|by intros ?%elem_of_nil]);
      intros ->%list_elem_of_singleton; auto.
  - replace (read ++ x :: lines) with ((read ++ [x]) ++ lines)
      by by rewrite <- app_assoc.
    assert (Hres' : ∀ r, result = Some r → paired (read ++ [x]) r)
      by (intros; apply paired_app; auto).
    destruct at_ as [|a|]; simpl.
    + destruct (pattern x) as [g|] eqn:Hx; [|by apply IH].
      destruct (entry g) as [a|] eqn:Hg; [|by apply IH].
      apply IH; [|done]. by exists read, x, [], g.
    + destruct (next_pattern x) as [m|] eqn:Hx.
      * apply IH; [done|]. intros r' [= <-].
        destruct Hat as (pre & l & mid & g & -> & ? & ? & ?).
        exists pre, l, mid, x, [], g, a, m.
        split; [by simplify_list_eq|done].
      * apply IH; [|done].
        destruct Hat as (pre & l & mid & g & -> & ? & ? & ?).
        exists pre, l, (mid ++ [x]), g.
        split; [by simplify_list_eq|].
        split_and!; try done. apply Forall_app; split; [done|by constructor].
    + destruct (pattern x) as [g|] eqn:Hx; [|by apply IH].
      destruct result as [r'|]; simpl; [|by intros ?%elem_of_nil].
      intros [->|Hr]%elem_of_cons; [by apply paired_app, Hres'|].
      by eapply IH, Hr.
Qed.

(** From the top of the file, every record yielded is paired. *)
Lemma run_paired_top (lines : list string) (r : R) :
  r ∈ (run FindEntry None lines).1 → paired lines r.
Proof.
  intros Hr. by apply (run_paired lines [] FindEntry None).
Qed.

End FirstValueFacts.

(** ** The loops of [cg_speed] *)

Section CgFacts.

Import Py DashboardRunLog.

Variable sensor_id : string.
Variable circumference : Q.

Abbreviation cg_run := (cg_speed_loop sensor_id circumference).
Abbreviation latest := (latest sensor_id circumference).
Abbreviation cg_closes := (cg_closes sensor_id).
Abbreviation cg_paired := (cg_paired sensor_id circumference).
Abbreviation cg_opened := (cg_opened sensor_id circumference).

Lemma latest_cons (a : Z * Z) (result : option SpeedSensorRecord.t)
    (x : string) (body : list string) :
  latest a result (x :: body)
  = latest a
      (match cg_next_pattern sensor_id x with
       | Some m => Some (speed_record circumference a m)
       | None => result
       end) body.
Proof.
  unfold latest.
  change (omap (cg_next_pattern sensor_id) (x :: body))
    with (match cg_next_pattern sensor_id x with
          | Some y => y :: omap (cg_next_pattern sensor_id) body
          | None => omap (cg_next_pattern sensor_id) body
          end).
  destruct (cg_next_pattern sensor_id x) as [m|]; [|done].
  rewrite last_cons.
  by destruct (last (omap (cg_next_pattern sensor_id) body)).
Qed.

(** Lines that are no announcement are all read by the inner loop, which
    keeps the last data entry among them. *)
Lemma cg_latest_reads (a : Z * Z) (result : option SpeedSensorRecord.t)
    (body rest : list string) :
  Forall (λ x, speed_pattern sensor_id x = None) body →
  cg_run (CgLatest a result) (body ++ rest)
  = cg_run (CgLatest a (latest a result body)) rest.
Proof.
  intros Hbody. revert result.
  induction Hbody as [|x body Hx _ IH]; intros result; [done|].
  rewrite latest_cons. simpl. rewrite Hx.
  destruct result, (cg_next_pattern sensor_id x); apply IH.
Qed.

(** Before the first data entry, announcement lines are read as well. *)
Lemma cg_latest_passes (a : Z * Z) (pre rest : list string) :
  Forall (λ x, cg_next_pattern sensor_id x = None) pre →
  cg_run (CgLatest a None) (pre ++ rest) = cg_run (CgLatest a None) rest.
Proof.
  induction 1 as [|x pre Hx _ IH]; simpl; [done|].
  by rewrite Hx.
Qed.

(** A line that matches the announcement pattern ends the inner loop once
    a record is held: the record is yielded and the outer loop reads on
    from the line after it. *)
Lemma cg_latest_ends (a : Z * Z) (r : SpeedSensorRecord.t) (t : string)
    (rest : list string) :
  speed_pattern sensor_id t ≠ None →
  cg_run (CgLatest a (Some r)) (t :: rest)
  = let k := cg_run CgFindEntry rest in (r :: k.1, k.2).
Proof.
  intros Ht. simpl. by destruct (speed_pattern sensor_id t).
Qed.

Lemma cg_interval (l : string) (g : string * string) (a : Z * Z)
    (m : (string * string) * (string * string)) (body tail : list string) :
  speed_pattern sensor_id l = Some g → speed_entry g = Some a →
  Forall (λ x, speed_pattern sensor_id x = None) body →
  last (omap (cg_next_pattern sensor_id) body) = Some m →
  cg_closes tail →
  cg_run CgFindEntry (l :: body ++ tail)
  = let k := cg_run CgFindEntry (List.tl tail) in
    (speed_record circumference a m :: k.1, k.2).
Proof.
  intros Hl Ha Hbody Hm Htail. simpl. rewrite Hl, Ha.
  rewrite cg_latest_reads by done. unfold latest. rewrite Hm.
  destruct tail as [|t tail]; [done|].
  by apply cg_latest_ends.
Qed.

Lemma cg_paired_app (lines more : list string) (r : SpeedSensorRecord.t) :
  cg_paired lines r → cg_paired (lines ++ more) r.
Proof.
  intros (pre & l & mid & v & post & g & a & m & -> & ?).
  exists pre, l, mid, v, (post ++ more), g, a, m.
  split; [|done]. by simplify_list_eq.
Qed.

Lemma cg_run_paired (lines read : list string) (at_ : cg_cursor) :
  cg_opened read at_ →
  ∀ r, r ∈ (cg_run at_ lines).1 → cg_paired (read ++ lines) r.
Proof.
  revert read at_.
  induction lines as [|x lines IH]; intros read at_ Hat r.
  - rewrite app_nil_r.
    destruct at_ as [|a [r'|]]; simpl; try by intros ?%elem_of_nil.
    intros ->%list_elem_of_singleton. by apply Hat.
  - replace (read ++ x :: lines) with ((read ++ [x]) ++ lines)
      by by simplify_list_eq.
    destruct at_ as [|a result]; simpl.
    + destruct (speed_pattern sensor_id x) as [g|] eqn:Hx; [|by apply IH].
      destruct (speed_entry g) as [a|] eqn:Hg; [|by apply IH].
      apply IH. split; [by exists read, x, [], g|done].
    + destruct Hat as [(pre & l & mid & g & -> & Hl & Hg) Hres].
      assert (Hopen : ∃ pre' l' mid' g',
                 (pre ++ l :: mid) ++ [x] = pre' ++ l' :: mid'
                 ∧ speed_pattern sensor_id l' = Some g'
                 ∧ speed_entry g' = Some a).
      { exists pre, l, (mid ++ [x]), g. split; [by simplify_list_eq|done]. }
      assert (Hstep : ∀ res',
                 (∀ r, res' = Some r → cg_paired ((pre ++ l :: mid) ++ [x]) r) →
                 r ∈ (cg_run (CgLatest a res') lines).1 →
                 cg_paired (((pre ++ l :: mid) ++ [x]) ++ lines) r).
      { intros res' Hres'. by apply IH. }
      assert (Hnext : r ∈ (match cg_next_pattern sensor_id x with
                           | Some m =>
                               cg_run (CgLatest a
                                 (Some (speed_record circumference a m))) lines
                           | None => cg_run (CgLatest a result) lines
                           end).1 →
                      cg_paired (((pre ++ l :: mid) ++ [x]) ++ lines) r).
      { destruct (cg_next_pattern sensor_id x) as [m|] eqn:Hx.
        - apply Hstep. intros r' [= <-].
          exists pre, l, mid, x, [], g, a, m.
          split; [by simplify_list_eq|done].
        - apply Hstep. intros r' Hr'. by apply cg_paired_app, Hres. }
      destruct result as [r'|]; [|done].
      destruct (speed_pattern sensor_id x); [|done]. simpl.
      intros [->|Hr]%elem_of_cons.
      * by apply cg_paired_app, cg_paired_app, Hres.
      * by apply (IH _ CgFindEntry).
Qed.

Lemma cg_run_paired_top (lines : list string) (r : SpeedSensorRecord.t) :
  r ∈ (cg_run CgFindEntry lines).1 → cg_paired lines r.
Proof.
  intros Hr. by apply (cg_run_paired lines [] CgFindEntry).
Qed.

End CgFacts.

(** ** The loops and their machines *)

Section LoopsAsMachine.

Context {G A V R : Type}.
Variable pattern : string → option G.
Variable entry : G → option A.
Variable next_pattern : string → option V.
Variable build : A → V → R.

Abbreviation run := (first_value pattern entry next_pattern build).
Abbreviation loops := (loops pattern entry next_pattern build).
Abbreviation find_data := (find_data next_pattern).
Abbreviation seek_copy := (seek_copy pattern).
Abbreviation found := (found build).

(** The machine at the loop that seeks the next copy: the loop, the
    [yield], and the outer loop on the lines left. *)
Lemma run_seek_copy (result : option R) (lines : list string) :
  run SeekCopy result lines
  = yield result (run FindEntry result (seek_copy lines)).
Proof.
  induction lines as [|l rest IH]; simpl; [done|].
  by destruct (pattern l).
Qed.

(** The machine at the loop that finds the data entry: that loop, then
    the one that seeks the next copy, the [yield], and the outer loop. *)
Lemma run_find_data (a : A) (result : option R) (lines : list string) :
  run (FindData a) result lines
  = yield (found a result (find_data lines).1)
      (run FindEntry (found a result (find_data lines).1)
         (seek_copy (find_data lines).2)).
Proof.
  induction lines as [|l rest IH]; simpl; [done|].
  destruct (next_pattern l) as [m|]; [|done].
  apply run_seek_copy.
Qed.

(** The outer loop is the machine at its first cursor. *)
Lemma loops_run (result : option R) (lines : list string) :
  loops result lines = run FindEntry result lines.
Proof.
  funelim (loops result lines).
  - done.
  - rewrite H. apply bind_Some in Heq as (g & Hg & Ha).
    simpl. rewrite Hg, Ha. by rewrite run_find_data.
  - rewrite H. simpl.
    destruct (pattern l) as [g|]; [|done].
    simpl in Heq. by rewrite Heq.
Qed.

End LoopsAsMachine.

Section CgLoopsAsMachine.

Import Py DashboardRunLog.

Variable sensor_id : string.
Variable circumference : Q.

Abbreviation cg_run := (cg_speed_loop sensor_id circumference).
Abbreviation cg_loops := (cg_loops sensor_id circumference).
Abbreviation keep_latest := (keep_latest sensor_id circumference).

(** The machine at the inner loop: that loop, then the test and the
    [yield] of lines 222-224, and the outer loop on the lines left. *)
Lemma cg_run_keep_latest (a : Z * Z) (result : option SpeedSensorRecord.t)
    (lines : list string) :
  cg_run (CgLatest a result) lines
  = match (keep_latest a result lines).1 with
    | None => ([], None)
    | Some r =>
        let k := cg_run CgFindEntry (keep_latest a result lines).2 in
        (r :: k.1, k.2)
    end.
Proof.
  revert result. induction lines as [|l rest IH]; intros result; simpl.
  - by destruct result.
  - destruct result as [r|], (speed_pattern sensor_id l) as [g|];
      try done; by destruct (cg_next_pattern sensor_id l).
Qed.

(** The outer loop is the machine at its first cursor. *)
Lemma cg_loops_run (lines : list string) :
  cg_loops lines = cg_run CgFindEntry lines.
Proof.
  funelim (cg_loops lines).
  - done.
  - rewrite H. simpl.
    destruct (speed_pattern sensor_id l) as [g|]; [|done].
    simpl in Heq. by rewrite Heq.
  - rewrite H. apply bind_Some in Heq0 as (g & Hg & Ha).
    simpl. rewrite Hg, Ha, cg_run_keep_latest. by rewrite Heq.
  - apply bind_Some in Heq0 as (g & Hg & Ha).
    simpl. rewrite Hg, Ha, cg_run_keep_latest. by rewrite Heq.
Qed.

End CgLoopsAsMachine.

(** ** The patterns *)

Section PatternFacts.

Import Text Py DashboardRunLog.

Lemma lit_inv (pre s rest : string) :
  lit pre s = Some rest → s = pre +:+ rest.
Proof.
  revert s. induction pre as [|c pre IH]; intros s; simpl.
  - by intros [= <-].
  - destruct s as [|d s]; [done|].
    destruct (Ascii.eqb c d) eqn:Hcd; [|done].
    apply Ascii.eqb_eq in Hcd as ->. by intros ->%IH.
Qed.

(** No line matches both patterns of [speed]: a line that starts with
    [SPEED] and a tab has no underscore after its first run of capitals and
    digits. *)
Lemma speed_patterns_apart (sensor_id l : string) :
  speed_pattern sensor_id l ≠ None → speed_next_pattern sensor_id l = None.
Proof.
  intros Hl. unfold speed_next_pattern.
  destruct (lit "SPEED" l) as [s|] eqn:Hs; [|done]. simpl.
  destruct (tab s) as [s'|] eqn:Hs'; [|done].
  apply lit_inv in Hs as ->. apply lit_inv in Hs' as ->.
  by destruct Hl.
Qed.

Lemma power_patterns_apart (sensor_id l : string) :
  power_pattern sensor_id l ≠ None → power_next_pattern sensor_id l = None.
Proof.
  intros Hl. unfold power_next_pattern.
  destruct (lit "POWER" l) as [s|] eqn:Hs; [|done]. simpl.
  destruct (tab s) as [s'|] eqn:Hs'; [|done].
  apply lit_inv in Hs as ->. apply lit_inv in Hs' as ->.
  by destruct Hl.
Qed.

Lemma lit_inside_word (sensor_id s : string) :
  no_underscore sensor_id = true →
  lit sensor_id ("SPEED_" +:+ s) ≫= tab = None.
Proof.
  intros Hid.
  do 5 (destruct sensor_id as [|? sensor_id]; [done|];
        apply andb_prop in Hid as [_ Hid]; simpl;
        destruct (Ascii.eqb _ _); [|done]).
  destruct sensor_id as [|c sensor_id]; [done|].
  apply andb_prop in Hid as [Hc _]. simpl.
  destruct (Ascii.eqb c "_") eqn:Hc'; [|done].
  by apply Ascii.eqb_eq in Hc' as ->.
Qed.

(** Nor both patterns of [cg_speed], the sensor id holding no
    underscore. *)
Lemma cg_patterns_apart (sensor_id l : string) :
  no_underscore sensor_id = true →
  speed_pattern sensor_id l ≠ None → cg_next_pattern sensor_id l = None.
Proof.
  intros Hid Hl. unfold cg_next_pattern.
  destruct (lit "CG_SPEED_" l) as [s|] eqn:Hs; [|done].
  apply lit_inv in Hs as ->. destruct Hl.
  unfold speed_pattern, sensor_key.
  change (many1 is_upper_digit ("CG_SPEED_" +:+ s))
    with (Some ("CG", "_SPEED_" +:+ s)).
  change (Some ("CG", "_SPEED_" +:+ s)
          ≫= (λ '(_, s0), lit "_" s0 ≫= λ s1, lit sensor_id s1 ≫= λ s2, tab s2))
    with (lit sensor_id ("SPEED_" +:+ s) ≫= tab).
  by rewrite lit_inside_word.
Qed.

(** What [split('_')] returns holds no underscore, and so the sensor id of
    the patterns. *)
Lemma split_no_underscore (s : string) :
  Forall (λ f, no_underscore f = true) (split "_" s).
Proof.
  induction s as [|c s IH]; simpl; [by repeat constructor|].
  destruct (Ascii.eqb c "_") eqn:Hc; [by constructor|].
  destruct (split "_" s) as [|f fs].
  - repeat constructor. unfold no_underscore. simpl. by rewrite Hc.
  - apply Forall_cons in IH as [Hf Hfs]. constructor; [|done].
    unfold no_underscore in *. simpl. by rewrite Hc.
Qed.

Lemma sensor_id_no_underscore (data : gmap string setting)
    (sensor_id : string) (c : Q) :
  speed_params data = Returned (sensor_id, c) →
  no_underscore sensor_id = true.
Proof.
  unfold speed_params. intros H.
  destruct (getitem data "speed") as [v|]; [|done]. simpl in H.
  destruct (index v 0) as [s|]; [|done]. simpl in H.
  unfold sensor_id_of in H. pose proof (split_no_underscore s) as Hs.
  destruct (split "_" s) as [|f0 [|f1 [|f2 fs]]]; try done. simpl in H.
  apply Forall_cons in Hs as [_ [Hid _]%Forall_cons].
  destruct (index v 1) as [t|]; [|done]. simpl in H.
  destruct (float t); try done. simpl in H.
  destruct (literal_id f1) as [id|] eqn:Hlit; [|done]. simpl in H.
  injection H as <- _. unfold literal_id in Hlit.
  destruct (forallb_str _ f1); [|done]. by injection Hlit as <-.
Qed.

(** The generators are their loops run from the top of the file. *)
Lemma speed_unfold (lines : list string) (sensor_id : string) (c : Q) :
  speed_settings lines = Returned (sensor_id, c) →
  speed lines = speed_loop sensor_id c FindEntry None lines.
Proof. unfold speed. intros ->. apply loops_run. Qed.

Lemma cg_speed_unfold (lines : list string) (sensor_id : string) (c : Q) :
  speed_settings lines = Returned (sensor_id, c) →
  cg_speed lines = cg_speed_loop sensor_id c CgFindEntry lines.
Proof. unfold cg_speed. intros ->. apply cg_loops_run. Qed.

Lemma power_unfold (lines : list string) (sensor_id : string) (offset : Z) :
  power_settings lines = Returned (sensor_id, offset) →
  power lines = power_loop sensor_id FindEntry None lines.
Proof. unfold power. intros ->. apply loops_run. Qed.

End PatternFacts.

(** ** One record per interval *)

Section Intervals.

Import Text Py DashboardRunLog.




End Intervals.

(** ** Where a record comes from *)

Section Provenance.

Import Text Py DashboardRunLog.

(** C2, as stated, fails: with two announcement lines before one broadcast
    line, [speed] yields a record for the first announcement, whose
    broadcast line was not found before the next announcement; the elapsed
    time of the record, 1, is the one of the first announcement (timer
    1024) and not the one of the announcement that immediately precedes the
    broadcast line (timer 2048), which would give 2. *)
Lemma late_broadcast_pairs_first_announcement :
  let claimed :=
    map (λ p, speed_record (421 # 200) p.1 p.2)
      (Spec.nearest_pairs (speed_pattern "12345") speed_entry
         (speed_next_pattern "12345") None Sample.late_broadcast) in
  let r := SpeedSensorRecord.mk 1700000001500000%Z 5 1 10%Z (421 # 200) in
  speed Sample.late_broadcast = ([r], None)
  ∧ claimed
    = [SpeedSensorRecord.mk 1700000001500000%Z 5 2 20%Z (421 # 200)]
  ∧ ¬ (∀ x, x ∈ (speed Sample.late_broadcast).1 → x ∈ claimed).
Proof.
  split_and!; [by vm_compute..|].
  intros H.
  specialize (H (SpeedSensorRecord.mk 1700000001500000%Z 5 1 10%Z (421 # 200))).
  vm_compute in H.
  by apply list_elem_of_singleton in H; [|apply list_elem_of_singleton].
Qed.

(** C2, amended: every record that an extractor yields pairs a data entry
    with an announcement line that the outer loop kept (timer not zero; for
    power, event count not the text 0) and that comes before it in the
    file; for [speed] and [power] the data entry is the first one after
    that announcement line.  Announcement lines between the two are passed
    over, so the announcement need not be the nearest one before the data
    entry.  In [cg_speed] an interval with no data entry before the end of
    the file yields nothing. *)
Theorem records_are_paired :
  (∀ lines sensor_id circumference r,
     speed_settings lines = Returned (sensor_id, circumference) →
     r ∈ (speed lines).1 →
     paired (speed_pattern sensor_id) speed_entry
       (speed_next_pattern sensor_id) (speed_record circumference) lines r)
  ∧ (∀ lines sensor_id offset r,
       power_settings lines = Returned (sensor_id, offset) →
       r ∈ (power lines).1 →
       paired (power_pattern sensor_id) power_entry
         (power_next_pattern sensor_id) power_record lines r)
  ∧ (∀ lines sensor_id circumference r,
       speed_settings lines = Returned (sensor_id, circumference) →
       r ∈ (cg_speed lines).1 →
       cg_paired sensor_id circumference lines r)
  ∧ (∀ sensor_id circumference l g a rest,
       speed_pattern sensor_id l = Some g → speed_entry g = Some a →
       Forall (λ x, cg_next_pattern sensor_id x = None) rest →
       cg_loops sensor_id circumference (l :: rest) = ([], None)).
Proof.
  split_and!.
  - intros lines sensor_id c r Hs. rewrite (speed_unfold _ _ _ Hs).
    apply run_paired_top.
  - intros lines sensor_id o r Hs. rewrite (power_unfold _ _ _ Hs).
    apply run_paired_top.
  - intros lines sensor_id c r Hs. rewrite (cg_speed_unfold _ _ _ Hs).
    apply cg_run_paired_top.
  - intros sensor_id c l g a rest Hl Ha Hrest.
    rewrite cg_loops_run. simpl. rewrite Hl, Ha.
    rewrite <- (app_nil_r rest). by rewrite cg_latest_passes.
Qed.

Lemma records_are_paired_witness :
  paired (speed_pattern "12345") speed_entry (speed_next_pattern "12345")
    (speed_record (421 # 200)) Sample.late_broadcast
    (SpeedSensorRecord.mk 1700000001500000%Z 5 1 10%Z (421 # 200))
  ∧ paired (power_pattern "777") power_entry (power_next_pattern "777")
      power_record Sample.power_ticks
      (PowerSensorRecord.mk 1700000001200000%Z (501 # 2) 7%Z 2)
  ∧ cg_paired "12345" (421 # 200) Sample.two_cg_intervals
      (SpeedSensorRecord.mk 1700000000500000%Z (99 # 10) 2 50%Z (421 # 200))
  ∧ cg_loops "12345" (421 # 200)
      [Sample.speed_announcement "1700000000.1" "1024" "10";
       Sample.speed_announcement "1700000000.4" "1024" "10"]
    = ([], None).
Proof.
  destruct records_are_paired as (Hspeed & Hpower & Hcg & Heof).
  split_and!.
  - apply (Hspeed Sample.late_broadcast "12345" (421 # 200)).
    + reflexivity.
    + apply list_elem_of_singleton. reflexivity.
  - apply (Hpower Sample.power_ticks "777" 512%Z).
    + reflexivity.
    + apply list_elem_of_singleton. reflexivity.
  - apply (Hcg Sample.two_cg_intervals "12345" (421 # 200)).
    + reflexivity.
    + apply list_elem_of_singleton. reflexivity.
  - apply (Heof "12345" (421 # 200) _ ("1024", "10") (1024%Z, 10%Z)).
    + reflexivity.
    + reflexivity.
    + repeat constructor.
Defined.

(** What the amended claim leaves out: in [speed] and [power], when the
    end of the file comes before the data entry, [yield result] runs all
    the same, on a [result] that is unbound or left from the interval
    before; [cg_speed] resets and tests its [result] and yields nothing. *)
Example speed_truncated_raises :
  speed Sample.truncated = ([], Some UnboundLocalError).
Proof. reflexivity. Qed.

Example speed_truncated_repeats :
  let r := SpeedSensorRecord.mk 1700000000500000%Z (19753 # 2000) 2 50%Z
             (421 # 200) in
  speed Sample.truncated_second = ([r; r], None).
Proof. reflexivity. Qed.

Example cg_speed_truncated_stops :
  cg_speed Sample.truncated = ([], None).
Proof. reflexivity. Qed.

End Provenance.

(** ** The intervals of [cg_speed] *)

Section CgIntervals.

Import Text Py DashboardRunLog.

(** The inner loop reads every line that is no announcement and holds the
    record of the last data entry among them. *)
Lemma keep_latest_reads sensor_id circumference a result body rest :
  Forall (λ x, speed_pattern sensor_id x = None) body →
  keep_latest sensor_id circumference a result (body ++ rest)
  = keep_latest sensor_id circumference a
      (latest sensor_id circumference a result body) rest.
Proof.
  intros Hbody. revert result.
  induction Hbody as [|x body Hx _ IH]; intros result; [done|].
  rewrite latest_cons. simpl. rewrite Hx.
  destruct result, (cg_next_pattern sensor_id x); apply IH.
Qed.






End CgIntervals.

(** ** Lines that open no interval *)

Section ZeroLines.

Import Text Py DashboardRunLog.



(** The test of [power] is on the text of the group (line 145): an event
    count written with more than one zero is kept. *)
Example power_keeps_a_padded_zero :
  power_loops "777" None
    [Sample.power_announcement "1700000000.1" "00" "4000";
     Sample.power_broadcast "1700000000.2" "111.000000"]
  = ([PowerSensorRecord.mk 1700000000200000%Z 111 0%Z 2], None).
Proof. reflexivity. Qed.

End ZeroLines.

(** ** Elapsed time *)

Section ElapsedTime.

Import Text Py DashboardRunLog.

(** The record that [speed] and [cg_speed] pair with an announcement. *)
Lemma speed_record_fields circumference a m :
  let r := speed_record circumference a m in
  SpeedSensorRecord.timestamp r = fromtimestamp (float_of_decimal m.1)
  ∧ SpeedSensorRecord.value r = float_of_decimal m.2
  ∧ SpeedSensorRecord.elapsed_time r = round6 (inject_Z a.1 / inject_Z 1024)
  ∧ SpeedSensorRecord.count r = a.2
  ∧ SpeedSensorRecord.circumference r = circumference.
Proof. by destruct a. Qed.

Lemma speed_entry_inv g a :
  speed_entry g = Some a →
  a = (int_of_digits g.1, int_of_digits g.2) ∧ int_of_digits g.1 ≠ 0%Z.
Proof.
  destruct g as [timer count]. unfold speed_entry. simpl.
  destruct (Z.eqb_spec (int_of_digits timer) 0); [done|].
  by intros [= <-].
Qed.

Lemma power_entry_inv g a :
  power_entry g = Some a →
  a = (int_of_digits g.1, (inject_Z (int_of_digits g.2) * (5 # 10000))%Q)
  ∧ g.1 ≠ "0".
Proof.
  destruct g as [event_count elapsed]. unfold power_entry. simpl.
  destruct (String.eqb_spec event_count "0"); [done|].
  by intros [= <-].
Qed.



(** The rounding changes nothing in [power]: a multiple of 0.0005 has four
    decimals. *)
Lemma power_elapsed_time_exact (timer : Z) :
  round6 (inject_Z timer * (5 # 10000)) == timer # 2000.
Proof.
  unfold round6. rewrite Qred_correct.
  assert (Hr : round_half_even
                 (inject_Z timer * (5 # 10000) * inject_Z 1000000)
               = (500 * timer)%Z).
  { unfold round_half_even.
    change (Z.pos (Qden (inject_Z timer * (5 # 10000) * inject_Z 1000000)))
      with 10000%Z.
    replace (Qnum (inject_Z timer * (5 # 10000) * inject_Z 1000000))
      with (500 * timer * 10000)%Z by (simpl; lia).
    rewrite Z.div_mul, Z.mod_mul by done. done. }
  rewrite Hr. unfold Qeq. simpl. lia.
Qed.

(** C8: the scenario of the specification gives one record, with value
    9.8765, elapsed time 2, count 50 and circumference 2.105. *)
Theorem scenario_yields_one_record :
  ∃ r,
    speed Sample.scenario = ([r], None)
    ∧ SpeedSensorRecord.timestamp r = fromtimestamp (17000000005 # 10)
    ∧ SpeedSensorRecord.value r == 9876500 # 1000000
    ∧ SpeedSensorRecord.elapsed_time r == 2
    ∧ SpeedSensorRecord.count r = 50%Z
    ∧ SpeedSensorRecord.circumference r == 2105 # 1000.
Proof.
  exists (SpeedSensorRecord.mk 1700000000500000%Z (19753 # 2000) 2 50%Z
            (421 # 200)).
  split_and!; by vm_compute.
Qed.

End ElapsedTime.

(** ** The settings *)

Section SettingsFacts.

Import Text Py DashboardRunLog.

Lemma settings_returned (lines : list string) :
  settings lines = Returned (settings_data lines).
Proof.
  unfold settings_data, settings.
  destruct (read_section time_entry ∅ (skip_to time_and_date lines)) as [d rest].
  by destruct (read_section rider_entry d (skip_to rider_and_device rest)).
Qed.

Lemma skip_to_absent (marker : string) (lines : list string) :
  Forall (λ l, starts_with marker l = false) lines →
  skip_to marker lines = [].
Proof. induction 1 as [|l lines Hl _ IH]; simpl; [done|]. by rewrite Hl. Qed.

Lemma skip_to_Forall (P : string → Prop) (marker : string) (lines : list string) :
  Forall P lines → Forall P (skip_to marker lines).
Proof.
  induction 1 as [|l lines Hl Hlines IH]; simpl; [done|].
  by destruct (starts_with marker l).
Qed.

Lemma read_section_Forall (P : string → Prop) entry data (lines : list string) :
  Forall P lines → Forall P (read_section entry data lines).2.
Proof.
  intros H. revert data.
  induction H as [|l lines Hl Hlines IH]; intros data; simpl; [done|].
  destruct (starts_with section_end l); [done|].
  destruct (entry l) as [[label v]|]; apply IH.
Qed.

(** The keys of a section are those of its entries. *)
Lemma read_section_keys (P : string → Prop) entry (lines : list string) data :
  (∀ l k v, entry l = Some (k, v) → P k) →
  (∀ k, is_Some (data !! k) → P k) →
  ∀ k, is_Some ((read_section entry data lines).1 !! k) → P k.
Proof.
  intros Hentry. revert data.
  induction lines as [|l lines IH]; intros data Hdata; simpl; [done|].
  destruct (starts_with section_end l); [done|].
  destruct (entry l) as [[label v]|] eqn:Hl; [|by apply IH].
  apply IH. intros k. destruct (decide (label = k)) as [<-|Hne].
  - intros _. by eapply Hentry.
  - rewrite lookup_insert_ne by done. apply Hdata.
Qed.

Lemma first_lit_elem (alts : list string) (s a rest : string) :
  first_lit alts s = Some (a, rest) → a ∈ alts.
Proof.
  induction alts as [|b alts IH]; simpl; [done|].
  destruct (lit b s).
  - intros [= <- _]. by left.
  - intros ?%IH. by right.
Qed.

Lemma time_entry_label (l k : string) (v : setting) :
  time_entry l = Some (k, v) →
  k ∈ ["start date"; "start time"; "run number"].
Proof.
  unfold time_entry. intros H.
  apply bind_Some in H as (s0 & _ & H).
  apply bind_Some in H as (s1 & _ & H).
  apply bind_Some in H as (s2 & _ & H).
  apply bind_Some in H as ([label s3] & Hlabel & H).
  apply bind_Some in H as (s4 & _ & H).
  apply bind_Some in H as (value & _ & H).
  destruct (_ && _); [|done]. injection H as <- _.
  apply first_lit_elem in Hlabel.
  set_unfold. destruct Hlabel as [->|[->|[->|[]]]]; auto.
Qed.

Lemma skip_to_passes (marker : string) (o rest : list string) :
  Forall (λ l, starts_with marker l = false) o →
  skip_to marker (o ++ rest) = skip_to marker rest.
Proof. induction 1 as [|l o Hl _ IH]; simpl; [done|]. by rewrite Hl. Qed.

(** Lines that are no marker, more or less, change nothing in what the
    search of a marker leaves, but for those lines. *)
Lemma skip_to_same_but (o1 o2 : list string) (marker : string)
    (x y : list string) :
  Forall (λ l, starts_with marker l = false) o1 →
  Forall (λ l, starts_with marker l = false) o2 →
  same_but o1 o2 x y → same_but o1 o2 (skip_to marker x) (skip_to marker y).
Proof.
  intros H1 H2 [->|(p & q & -> & ->)]; [by left|].
  induction p as [|c p IH]; simpl.
  - rewrite !skip_to_passes by done. by left.
  - destruct (starts_with marker c); [|done]. right. by exists p, q.
Qed.

Lemma read_section_passes entry data (o rest : list string) :
  Forall (λ l, starts_with section_end l = false ∧ entry l = None) o →
  read_section entry data (o ++ rest) = read_section entry data rest.
Proof.
  induction 1 as [|l o [Hl Hl'] _ IH]; simpl; [done|]. by rewrite Hl, Hl'.
Qed.

(** Nor in what a section collects, when they are no entry of it. *)
Lemma read_section_same_but (o1 o2 : list string) entry data
    (x y : list string) :
  Forall (λ l, starts_with section_end l = false ∧ entry l = None) o1 →
  Forall (λ l, starts_with section_end l = false ∧ entry l = None) o2 →
  same_but o1 o2 x y →
  (read_section entry data x).1 = (read_section entry data y).1
  ∧ same_but o1 o2 (read_section entry data x).2 (read_section entry data y).2.
Proof.
  intros H1 H2 [->|(p & q & -> & ->)]; [by split; [|left]|].
  revert data. induction p as [|c p IH]; intros data; simpl.
  - rewrite !read_section_passes by done. by split; [|left].
  - destruct (starts_with section_end c).
    + split; [done|]. right. by exists p, q.
    + destruct (entry c) as [[label v]|]; apply IH.
Qed.

Lemma settings_same_but (o1 o2 : list string) (x y : list string) :
  Forall shapeless o1 → Forall shapeless o2 →
  same_but o1 o2 x y → settings x = settings y.
Proof.
  intros H1 H2 Hxy. unfold settings.
  assert (Hm : ∀ o marker,
             Forall shapeless o →
             (∀ l, shapeless l → starts_with marker l = false) →
             Forall (λ l, starts_with marker l = false) o).
  { intros o marker Ho Hm. eapply Forall_impl; [exact Ho|exact Hm]. }
  assert (He : ∀ o (entry : string → option (string * setting)),
             Forall shapeless o →
             (∀ l, shapeless l → entry l = None) →
             Forall (λ l, starts_with section_end l = false ∧ entry l = None) o).
  { intros o entry Ho He. eapply Forall_impl; [exact Ho|].
    intros l Hl. split; [apply Hl|by apply He]. }
  apply (skip_to_same_but o1 o2 time_and_date) in Hxy;
    [|apply Hm; [done|by intros l (?&?&?&?&?)]..].
  apply (read_section_same_but o1 o2 time_entry ∅) in Hxy as [Hd Hxy];
    [|apply He; [done|by intros l (?&?&?&?&?)]..].
  destruct (read_section time_entry ∅ (skip_to time_and_date x)) as [d rx].
  destruct (read_section time_entry ∅ (skip_to time_and_date y)) as [d' ry].
  simpl in Hd, Hxy. subst d'.
  apply (skip_to_same_but o1 o2 rider_and_device) in Hxy;
    [|apply Hm; [done|by intros l (?&?&?&?&?)]..].
  apply (read_section_same_but o1 o2 rider_entry d) in Hxy as [Hd _];
    [|apply He; [done|by intros l (?&?&?&?&?)]..].
  destruct (read_section rider_entry d (skip_to rider_and_device rx)).
  destruct (read_section rider_entry d (skip_to rider_and_device ry)).
  simpl in Hd. by subst.
Qed.

(** C4, as stated, fails: nothing in [settings] raises, and no exception
    named MissingSectionError exists.  A file with neither section marker
    makes [settings] return the empty mapping. *)
Lemma settings_of_a_file_without_markers :
  Forall (λ l, starts_with time_and_date l = false
               ∧ starts_with rider_and_device l = false) Sample.headless
  ∧ settings Sample.headless = Returned ∅
  ∧ ¬ (∃ e, settings Sample.headless = Raised e).
Proof.
  split_and!; [by repeat constructor|done|by intros [e [=]]].
Qed.

(** C4, amended: [settings] returns a mapping for every input and never
    fails.  When the marker of the first section is never found the mapping
    is empty; when the marker of the second section is never found the
    mapping has no other keys than the three of the first section; a line
    of no known shape is passed over, the mapping being what it is without
    that line. *)
Theorem settings_always_returns (lines : list string) :
  ∃ data,
    settings lines = Returned data
    ∧ (Forall (λ l, starts_with time_and_date l = false) lines → data = ∅)
    ∧ (Forall (λ l, starts_with rider_and_device l = false) lines →
       ∀ k, is_Some (data !! k) →
            k ∈ ["start date"; "start time"; "run number"])
    ∧ (∀ pre l post,
         lines = pre ++ l :: post → shapeless l →
         settings (pre ++ post) = Returned data).
Proof.
  exists (settings_data lines). split_and!.
  - apply settings_returned.
  - intros H. unfold settings_data, settings.
    by rewrite skip_to_absent.
  - intros H. unfold settings_data, settings.
    pose proof (read_section_Forall _ time_entry ∅ _
                  (skip_to_Forall _ time_and_date _ H)) as Hrest.
    pose proof (read_section_keys
                  (λ k, k ∈ ["start date"; "start time"; "run number"])
                  time_entry (skip_to time_and_date lines) ∅
                  time_entry_label) as Hkeys.
    destruct (read_section time_entry ∅ (skip_to time_and_date lines))
      as [d rest].
    simpl in Hrest, Hkeys. rewrite (skip_to_absent _ _ Hrest). simpl.
    apply Hkeys. intros k. rewrite lookup_empty. by intros [? ?].
  - intros pre l post -> Hl. rewrite <- settings_returned.
    symmetry. apply (settings_same_but [l] []); [by constructor|done|].
    right. by exists pre, post.
Qed.

Lemma settings_always_returns_witness :
  (∃ data,
     settings (Sample.speed_broadcast "1700000000.5" "9.876500"
               :: Sample.header) = Returned data
     ∧ data !! "speed" = Some (Triple "BSPD_12345" "2.105" "0")
     ∧ settings Sample.header = Returned data)
  ∧ (∃ data, settings Sample.headless = Returned data ∧ data = ∅).
Proof.
  split.
  - destruct (settings_always_returns
                (Sample.speed_broadcast "1700000000.5" "9.876500"
                 :: Sample.header)) as (data & Hdata & _ & _ & Hskip).
    exists data. split_and!.
    + exact Hdata.
    + injection Hdata as <-. reflexivity.
    + apply (Hskip [] (Sample.speed_broadcast "1700000000.5" "9.876500")
               Sample.header).
      * reflexivity.
      * repeat split.
  - destruct (settings_always_returns Sample.headless)
      as (data & Hdata & Hempty & _).
    exists data. split; [exact Hdata|].
    apply Hempty. repeat constructor.
Defined.

End SettingsFacts.

(** ** Order of the records *)

Section Order.

Import Text Py DashboardRunLog Main.

Context {A : Type}.
Variable key : A → Z.

Lemma insert_perm (x : A) (l : list A) : insert key x l ≡ₚ x :: l.
Proof.
  induction l as [|y l IH]; simpl; [done|].
  destruct (key x <=? key y)%Z; [done|].
  rewrite IH. apply Permutation_swap.
Qed.

Lemma sorted_perm (l : list A) : sorted key l ≡ₚ l.
Proof.
  induction l as [|x l IH]; simpl; [done|].
  by rewrite insert_perm, IH.
Qed.

Lemma insert_sorted (x : A) (l : list A) :
  StronglySorted Z.le (map key l) →
  StronglySorted Z.le (map key (insert key x l)).
Proof.
  induction l as [|y l IH]; simpl; intros Hl.
  - by repeat constructor.
  - apply StronglySorted_inv in Hl as [Hl Hy].
    destruct (Z.leb_spec (key x) (key y)) as [Hxy|Hxy]; simpl.
    + constructor; [by constructor|]. constructor; [done|].
      eapply Forall_impl; [exact Hy|]. simpl. lia.
    + constructor; [by apply IH|].
      rewrite (insert_perm x l). simpl. constructor; [lia|done].
Qed.

Lemma sorted_sorted (l : list A) :
  StronglySorted Z.le (map key (sorted key l)).
Proof.
  induction l as [|x l IH]; simpl; [constructor|]. by apply insert_sorted.
Qed.

(** Records of equal key stay in the order they had. *)
Lemma insert_stable (t : Z) (x : A) (l : list A) :
  filter (λ y, key y = t) (insert key x l)
  = filter (λ y, key y = t) (x :: l).
Proof.
  induction l as [|y l IH]; simpl; [done|].
  destruct (Z.leb_spec (key x) (key y)) as [Hxy|Hxy]; [done|].
  rewrite filter_cons, IH, !filter_cons.
  repeat case_decide; try done; lia.
Qed.

Lemma sorted_stable (t : Z) (l : list A) :
  filter (λ y, key y = t) (sorted key l) = filter (λ y, key y = t) l.
Proof.
  induction l as [|x l IH]; simpl; [done|].
  by rewrite insert_stable, !filter_cons, IH.
Qed.

End Order.

Section StampOrder.

Context {G A V R : Type}.
Variable pattern : string → option G.
Variable entry : G → option A.
Variable next_pattern : string → option V.
Variable build : A → V → R.
Variable at_record : R → Z.
Variable at_value : V → Z.
Hypothesis build_stamp : ∀ a v, at_record (build a v) = at_value v.

Abbreviation run := (first_value pattern entry next_pattern build).
Abbreviation stamps := (value_stamps next_pattern at_value).

Lemma value_stamps_cons (x : string) (lines : list string) :
  stamps (x :: lines)
  = match next_pattern x with
    | Some v => at_value v :: stamps lines
    | None => stamps lines
    end.
Proof.
  unfold value_stamps.
  change (omap (λ l, at_value <$> next_pattern l) (x :: lines))
    with (match at_value <$> next_pattern x with
          | Some y => y :: omap (λ l, at_value <$> next_pattern l) lines
          | None => omap (λ l, at_value <$> next_pattern l) lines
          end).
  by destruct (next_pattern x).
Qed.

(** When the data entries of the file are in the order of their
    timestamps, so are the records, and none is older than the record
    held. *)
Lemma run_sorted (lines : list string) (at_ : cursor) (result : option R) :
  StronglySorted Z.le (stamps lines) →
  (∀ r, result = Some r → Forall (Z.le (at_record r)) (stamps lines)) →
  StronglySorted Z.le (map at_record (run at_ result lines).1)
  ∧ ∀ b, (∀ r, result = Some r → (b ≤ at_record r)%Z) →
         Forall (Z.le b) (stamps lines) →
         Forall (Z.le b) (map at_record (run at_ result lines).1).
Proof.
  revert at_ result.
  induction lines as [|x lines IH]; intros at_ result Hsorted Hres.
  - destruct at_, result as [r|]; simpl; split;
      repeat constructor; auto.
  - rewrite value_stamps_cons in Hsorted, Hres.
    assert (Hsorted' : StronglySorted Z.le (stamps lines)).
    { destruct (next_pattern x); [|done].
      by apply StronglySorted_inv in Hsorted as [? _]. }
    assert (Hres' : ∀ r, result = Some r →
                         Forall (Z.le (at_record r)) (stamps lines)).
    { intros r Hr. specialize (Hres r Hr).
      destruct (next_pattern x); [|done].
      by apply Forall_cons in Hres as [_ ?]. }
    assert (Hb' : ∀ b, Forall (Z.le b) (stamps (x :: lines)) →
                       Forall (Z.le b) (stamps lines)).
    { intros b. rewrite value_stamps_cons.
      destruct (next_pattern x); [|done]. by intros [_ ?]%Forall_cons. }
    assert (Hbv : ∀ b v, next_pattern x = Some v →
                         Forall (Z.le b) (stamps (x :: lines)) →
                         (b ≤ at_value v)%Z).
    { intros b v Hv. rewrite value_stamps_cons, Hv.
      by intros [? _]%Forall_cons. }
    set (sx := stamps (x :: lines)) in *.
    destruct at_ as [|a|]; simpl.
    + destruct (pattern x) as [g|]; [destruct (entry g) as [a|]|];
        (split; [by apply IH|intros b ? ?; by apply IH; auto]).
    + destruct (next_pattern x) as [v|] eqn:Hx.
      * apply StronglySorted_inv in Hsorted as [_ Hv].
        assert (Hnew : ∀ r, Some (build a v) = Some r →
                            Forall (Z.le (at_record r)) (stamps lines)).
        { intros r [= <-]. by rewrite build_stamp. }
        split; [by apply IH|]. intros b _ Hb.
        apply IH; [done..| |by apply Hb'].
        intros r [= <-]. rewrite build_stamp. by apply Hbv.
      * split; [by apply IH|]. intros b ? Hb. apply IH; auto.
    + destruct (pattern x) as [g|].
      * destruct result as [r|]; simpl; [|by split; repeat constructor].
        destruct (IH FindEntry (Some r) Hsorted' Hres') as [Hs Hbound].
        split.
        -- constructor; [done|]. apply Hbound; [|by apply Hres'].
           by intros r' [= <-].
        -- intros b Hb Hstamps. constructor; [by apply Hb|].
           apply Hbound; [done|by apply Hb'].
      * split; [by apply IH|]. intros b ? ?. apply IH; auto.
Qed.

End StampOrder.

Section CgStampOrder.

Import Text Py DashboardRunLog.

Variable sensor_id : string.
Variable circumference : Q.

Abbreviation cg_run := (cg_speed_loop sensor_id circumference).
Abbreviation cg_stamps := (value_stamps (cg_next_pattern sensor_id) stamp).
Abbreviation time_of := SpeedSensorRecord.timestamp.

Lemma speed_record_stamp (c : Q) (a : Z * Z) m :
  SpeedSensorRecord.timestamp (speed_record c a m) = stamp m.
Proof. by destruct a. Qed.

Lemma power_record_stamp (a : Z * Q) m :
  PowerSensorRecord.timestamp (power_record a m) = stamp m.
Proof. by destruct a. Qed.

(** What the inner loop holds is not newer than the data entries still to
    be read. *)
Lemma cg_run_sorted (lines : list string) (at_ : cg_cursor) :
  StronglySorted Z.le (cg_stamps lines) →
  (∀ a r, at_ = CgLatest a (Some r) →
          Forall (Z.le (time_of r)) (cg_stamps lines)) →
  StronglySorted Z.le (map time_of (cg_run at_ lines).1)
  ∧ ∀ b, (∀ a r, at_ = CgLatest a (Some r) → (b ≤ time_of r)%Z) →
         Forall (Z.le b) (cg_stamps lines) →
         Forall (Z.le b) (map time_of (cg_run at_ lines).1).
Proof.
  revert at_.
  induction lines as [|x lines IH]; intros at_ Hsorted Hres.
  - destruct at_ as [|a [r|]]; simpl; split; repeat constructor; eauto.
  - rewrite value_stamps_cons in Hsorted.
    assert (Hsorted' : StronglySorted Z.le (cg_stamps lines)).
    { destruct (cg_next_pattern sensor_id x); [|done].
      by apply StronglySorted_inv in Hsorted as [? _]. }
    assert (Hb' : ∀ b, Forall (Z.le b) (cg_stamps (x :: lines)) →
                       Forall (Z.le b) (cg_stamps lines)).
    { intros b. rewrite value_stamps_cons.
      destruct (cg_next_pattern sensor_id x); [|done].
      by intros [_ ?]%Forall_cons. }
    assert (Hbv : ∀ b v, cg_next_pattern sensor_id x = Some v →
                         Forall (Z.le b) (cg_stamps (x :: lines)) →
                         (b ≤ stamp v)%Z).
    { intros b v Hv. rewrite value_stamps_cons, Hv.
      by intros [? _]%Forall_cons. }
    assert (Hfresh : ∀ at', (∀ a r, at' ≠ CgLatest a (Some r)) →
              StronglySorted Z.le (map time_of (cg_run at' lines).1)
              ∧ ∀ b, Forall (Z.le b) (cg_stamps lines) →
                     Forall (Z.le b) (map time_of (cg_run at' lines).1)).
    { intros at' Hat'.
      destruct (IH at' Hsorted') as [Hs Hbound];
        [by intros a r ?%Hat'|].
      split; [done|]. intros b Hb. apply Hbound; [|done].
      by intros a r ?%Hat'. }
    assert (Hstep : ∀ a,
              let k := match cg_next_pattern sensor_id x with
                       | Some m =>
                           cg_run (CgLatest a
                             (Some (speed_record circumference a m))) lines
                       | None => cg_run (CgLatest a None) lines
                       end in
              StronglySorted Z.le (map time_of k.1)
              ∧ ∀ b, Forall (Z.le b) (cg_stamps (x :: lines)) →
                     Forall (Z.le b) (map time_of k.1)).
    { intros a. destruct (cg_next_pattern sensor_id x) as [m|] eqn:Hx; simpl.
      - apply StronglySorted_inv in Hsorted as [_ Hm].
        destruct (IH (CgLatest a (Some (speed_record circumference a m)))
                    Hsorted') as [Hs Hbound].
        { intros a' r [= <- <-]. by rewrite speed_record_stamp. }
        split; [done|]. intros b Hb. apply Hbound; [|by apply Hb'].
        intros a' r [= <- <-]. rewrite speed_record_stamp. by apply Hbv.
      - destruct (Hfresh (CgLatest a None)) as [Hs Hbound]; [done|].
        split; [done|]. intros b Hb. by apply Hbound, Hb'. }
    set (sx := cg_stamps (x :: lines)) in *.
    destruct at_ as [|a result]; simpl.
    + assert (Hk : ∀ at', (∀ a r, at' ≠ CgLatest a (Some r)) →
                StronglySorted Z.le (map time_of (cg_run at' lines).1)
                ∧ ∀ b, (∀ a r, CgFindEntry = CgLatest a (Some r) →
                               (b ≤ time_of r)%Z) →
                       Forall (Z.le b) sx →
                       Forall (Z.le b) (map time_of (cg_run at' lines).1)).
      { intros at' Hat'. destruct (Hfresh at' Hat') as [Hs Hbound].
        split; [done|]. intros b _ Hb. by apply Hbound, Hb'. }
      destruct (speed_pattern sensor_id x) as [g|];
        [destruct (speed_entry g) as [a|]|]; by apply Hk.
    + destruct result as [r|].
      * destruct (speed_pattern sensor_id x) as [g|]; simpl.
        -- destruct (Hfresh CgFindEntry) as [Hs Hbound]; [done|].
           assert (Hr : Forall (Z.le (time_of r)) (cg_stamps lines))
             by by eapply Hb', Hres.
           split.
           ++ constructor; [done|]. by apply Hbound.
           ++ intros b Hb Hstamps. constructor; [by eapply Hb|].
              by apply Hbound, Hb'.
        -- destruct (Hstep a) as [Hs' Hbound'].
           destruct (cg_next_pattern sensor_id x) as [m|] eqn:Hx.
           ++ split; [done|]. intros b _. apply Hbound'.
           ++ destruct (IH (CgLatest a (Some r)) Hsorted') as [Hs Hbound].
              { intros a' r' [= <- <-]. by eapply Hb', Hres. }
              split; [done|]. intros b Hb Hstamps.
              apply Hbound; [done|by apply Hb'].
      * destruct (Hstep a) as [Hs Hbound].
        destruct (cg_next_pattern sensor_id x) as [m|]; simpl in *;
          (split; [done|]; intros b _; apply Hbound).
Qed.

End CgStampOrder.

Section TimeOrder.

Import Text Py DashboardRunLog Main.




End TimeOrder.

(** ** The offset of the power meter *)

Section Offset.

Import Text Py DashboardRunLog.

Lemma chomp_app (s : string) : chomp (s +:+ String LF EmptyString) = Some s.
Proof.
  induction s as [|c s IH]; [done|].
  simpl. rewrite IH. by destruct (s +:+ String LF EmptyString).
Qed.

Lemma split_field (s rest : string) :
  forallb_str not_tab s = true →
  split TAB (s +:+ String TAB rest) = s :: split TAB rest.
Proof.
  induction s as [|c s IH]; simpl; [done|].
  intros [Hc Hs]%andb_prop. unfold not_tab in Hc.
  destruct (Ascii.eqb c TAB); [done|]. by rewrite IH.
Qed.

Lemma split_last_field (s : string) :
  forallb_str not_tab s = true → split TAB s = [s].
Proof.
  induction s as [|c s IH]; simpl; [done|].
  intros [Hc Hs]%andb_prop. unfold not_tab in Hc.
  destruct (Ascii.eqb c TAB); [done|]. by rewrite IH.
Qed.

Lemma power_line_shape (sensor offset param2 : string) :
  power_line sensor offset param2
  = String "#" (String TAB (String TAB
      ("POWER" +:+ String TAB
         ((sensor +:+ String TAB (offset +:+ String TAB param2))
          +:+ String LF EmptyString)))).
Proof. reflexivity. Qed.

Lemma rider_entry_power (s : string) :
  rider_entry (String "#" (String TAB (String TAB
                 ("POWER" +:+ String TAB s))))
  = chomp s ≫= λ body,
      match split TAB body with
      | [value] =>
          if nonempty value then Some ("power", Scalar value) else None
      | [value; param1; param2] =>
          if nonempty value && nonempty param1 && nonempty param2
          then Some ("power", Triple value param1 param2) else None
      | _ => None
      end.
Proof. reflexivity. Qed.

Lemma power_line_entry (sensor offset param2 : string) :
  field sensor = true → field offset = true → field param2 = true →
  rider_entry (power_line sensor offset param2)
  = Some ("power", Triple sensor offset param2).
Proof.
  intros [Hs Hs']%andb_prop [Ho Ho']%andb_prop [Hp Hp']%andb_prop.
  rewrite power_line_shape, rider_entry_power, chomp_app. simpl.
  rewrite !split_field, split_last_field by done.
  by rewrite Hs, Ho, Hp.
Qed.

(** The line is no section marker, no end of a section, no entry of the
    first section, and no line of the body. *)
Lemma power_line_elsewhere (sensor offset param2 sensor_id : string) :
  starts_with time_and_date (power_line sensor offset param2) = false
  ∧ starts_with rider_and_device (power_line sensor offset param2) = false
  ∧ starts_with section_end (power_line sensor offset param2) = false
  ∧ time_entry (power_line sensor offset param2) = None
  ∧ power_pattern sensor_id (power_line sensor offset param2) = None
  ∧ power_next_pattern sensor_id (power_line sensor offset param2) = None.
Proof. by rewrite power_line_shape. Qed.

Lemma power_sensor_insert_ne (k : string) (v : setting)
    (data : gmap string setting) :
  k ≠ "power" → power_sensor (<[k:=v]> data) = power_sensor data.
Proof.
  intros Hk. unfold power_sensor, power_params, getitem.
  by rewrite lookup_insert_ne.
Qed.

Lemma power_sensor_insert (k : string) (v : setting)
    (d1 d2 : gmap string setting) :
  power_sensor d1 = power_sensor d2 →
  power_sensor (<[k:=v]> d1) = power_sensor (<[k:=v]> d2).
Proof.
  intros H. destruct (decide (k = "power")) as [->|Hk].
  - unfold power_sensor, power_params, getitem.
    by rewrite !lookup_insert_eq.
  - by rewrite !power_sensor_insert_ne.
Qed.

(** The offset is parsed and dropped: two offsets that are integers give
    the same sensor id, or the same exception. *)
Lemma power_sensor_offset (sensor o1 o2 param2 : string)
    (d1 d2 : gmap string setting) :
  is_Some (int o1) → is_Some (int o2) →
  power_sensor (<["power":=Triple sensor o1 param2]> d1)
  = power_sensor (<["power":=Triple sensor o2 param2]> d2).
Proof.
  intros [z1 H1] [z2 H2]. unfold power_sensor, power_params, getitem.
  rewrite !lookup_insert_eq. simpl.
  destruct (sensor_id_of sensor) as [sensor_id|e]; simpl; [|done].
  rewrite H1, H2. simpl. by destruct (literal_id sensor_id).
Qed.

Lemma read_section_sensor entry (lines : list string)
    (d1 d2 : gmap string setting) :
  power_sensor d1 = power_sensor d2 →
  power_sensor (read_section entry d1 lines).1
  = power_sensor (read_section entry d2 lines).1.
Proof.
  revert d1 d2. induction lines as [|l lines IH]; intros d1 d2 H; simpl;
    [done|].
  destruct (starts_with section_end l); [done|].
  destruct (entry l) as [[label v]|]; [|by apply IH].
  by apply IH, power_sensor_insert.
Qed.

Lemma read_section_offset (l1 l2 sensor o1 o2 param2 : string)
    (x y : list string) (d1 d2 : gmap string setting) :
  starts_with section_end l1 = false → starts_with section_end l2 = false →
  rider_entry l1 = Some ("power", Triple sensor o1 param2) →
  rider_entry l2 = Some ("power", Triple sensor o2 param2) →
  is_Some (int o1) → is_Some (int o2) →
  same_but [l1] [l2] x y →
  power_sensor d1 = power_sensor d2 →
  power_sensor (read_section rider_entry d1 x).1
  = power_sensor (read_section rider_entry d2 y).1.
Proof.
  intros He1 He2 Hl1 Hl2 Ho1 Ho2 [->|(p & q & -> & ->)];
    [apply read_section_sensor|].
  revert d1 d2. induction p as [|c p IH]; intros d1 d2 H; simpl.
  - rewrite He1, He2, Hl1, Hl2.
    by apply read_section_sensor, power_sensor_offset.
  - destruct (starts_with section_end c); [done|].
    destruct (rider_entry c) as [[label v]|]; [|by apply IH].
    by apply IH, power_sensor_insert.
Qed.

(** Two files that differ in the offset of one settings line of the power
    meter give [power] the same sensor id, or the same exception. *)
Lemma settings_offset (sensor o1 o2 param2 : string) (pre post : list string) :
  field sensor = true → field o1 = true → field o2 = true →
  field param2 = true →
  is_Some (int o1) → is_Some (int o2) →
  power_sensor (settings_data (pre ++ power_line sensor o1 param2 :: post))
  = power_sensor (settings_data (pre ++ power_line sensor o2 param2 :: post)).
Proof.
  intros Hs Ho1 Ho2 Hp Hi1 Hi2.
  set (l1 := power_line sensor o1 param2).
  set (l2 := power_line sensor o2 param2).
  assert (Hxy : same_but [l1] [l2] (pre ++ l1 :: post) (pre ++ l2 :: post))
    by (right; by exists pre, post).
  destruct (power_line_elsewhere sensor o1 param2 "")
    as (Ht1 & Hr1 & He1 & Hn1 & _).
  destruct (power_line_elsewhere sensor o2 param2 "")
    as (Ht2 & Hr2 & He2 & Hn2 & _).
  unfold settings_data, settings.
  apply (skip_to_same_but [l1] [l2] time_and_date) in Hxy;
    [|by repeat constructor..].
  apply (read_section_same_but [l1] [l2] time_entry ∅) in Hxy as [Hd Hxy];
    [|by repeat constructor..].
  destruct (read_section time_entry ∅
              (skip_to time_and_date (pre ++ l1 :: post))) as [d rx].
  destruct (read_section time_entry ∅
              (skip_to time_and_date (pre ++ l2 :: post))) as [d' ry].
  simpl in Hd, Hxy. subst d'.
  apply (skip_to_same_but [l1] [l2] rider_and_device) in Hxy;
    [|by repeat constructor..].
  pose proof (read_section_offset l1 l2 sensor o1 o2 param2 _ _ d d
                He1 He2 (power_line_entry _ _ _ Hs Ho1 Hp)
                (power_line_entry _ _ _ Hs Ho2 Hp) Hi1 Hi2 Hxy eq_refl) as H.
  destruct (read_section rider_entry d (skip_to rider_and_device rx)).
  by destruct (read_section rider_entry d (skip_to rider_and_device ry)).
Qed.

Lemma power_by_sensor (lines : list string) :
  power lines
  = match power_sensor (settings_data lines) with
    | Returned sensor_id => power_loop sensor_id FindEntry None lines
    | Raised e => raised e
    end.
Proof.
  unfold power, power_settings, power_sensor.
  rewrite settings_returned. simpl.
  destruct (power_params (settings_data lines)) as [[sensor_id offset]|e];
    [|done].
  apply loops_run.
Qed.

End Offset.

Section Unseen.

Context {G A V R : Type}.
Variable pattern : string → option G.
Variable entry : G → option A.
Variable next_pattern : string → option V.
Variable build : A → V → R.

Abbreviation run := (first_value pattern entry next_pattern build).

(** Lines that match neither pattern, more or less, change nothing in
    the run. *)
Lemma run_same_but (o1 o2 x y : list string) (at_ : cursor)
    (result : option R) :
  Forall (λ l, pattern l = None ∧ next_pattern l = None) o1 →
  Forall (λ l, pattern l = None ∧ next_pattern l = None) o2 →
  same_but o1 o2 x y →
  run at_ result x = run at_ result y.
Proof.
  intros H1 H2 [->|(p & q & -> & ->)]; [done|].
  assert (Hpass : ∀ o at_ result,
             Forall (λ l, pattern l = None ∧ next_pattern l = None) o →
             run at_ result (o ++ q) = run at_ result q).
  { intros o at' result' Ho. revert at' result'.
    induction Ho as [|l o [Hl Hl'] _ IH]; intros at' result'; [done|].
    destruct at'; simpl; rewrite ?Hl, ?Hl'; apply IH. }
  revert at_ result. induction p as [|c p IH]; intros at_ result; simpl.
  - by rewrite !Hpass.
  - destruct at_ as [|a|]; simpl.
    + destruct (pattern c) as [g|]; [destruct (entry g)|]; apply IH.
    + destruct (next_pattern c); apply IH.
    + destruct (pattern c); [|apply IH]. by rewrite IH.
Qed.

End Unseen.

Section OffsetClaim.

Import Text Py DashboardRunLog.



End OffsetClaim.

(** * Further properties *)

(** ** Whole files of intervals *)

Section Blocks.

Context {G A V R : Type}.
Variable pattern : string → option G.
Variable entry : G → option A.
Variable next_pattern : string → option V.
Variable build : A → V → R.

Abbreviation run := (first_value pattern entry next_pattern build).
Abbreviation loops := (loops pattern entry next_pattern build).
Abbreviation block_of := (block_of pattern entry next_pattern build).
Abbreviation kept_lines := (kept_lines pattern entry).

(** Lines that the outer loop does not keep are passed over by it. *)
Lemma loops_passes (result : option R) (head rest : list string) :
  Forall (λ x, pattern x ≫= entry = None) head →
  loops result (head ++ rest) = loops result rest.
Proof.
  rewrite !loops_run.
  induction 1 as [|x head Hx _ IH]; simpl; [done|].
  destruct (pattern x) as [g|]; [|done]. simpl in Hx. by rewrite Hx.
Qed.

Lemma held_cons (result : option R) (r : R) (rs : list R) :
  held result (r :: rs) = held (Some r) rs.
Proof. unfold held. rewrite last_cons. by destruct (last rs). Qed.

(** Block after block, one record each. *)
Lemma loops_blocks (blocks : list (list string)) (records : list R)
    (result : option R) (tail : list string) :
  Forall2 block_of blocks records →
  loops result (concat blocks ++ tail)
  = let k := loops (held result records) tail in (records ++ k.1, k.2).
Proof.
  intros H. revert result.
  induction H as [|b r blocks records Hb _ IH]; intros result.
  - unfold held. simpl. by destruct (loops result tail).
  - destruct Hb as (l & g & a & pre & v & m & post & t
                    & -> & Hl & Ha & Hpre & Hv & Hpost & Ht & ->).
    rewrite held_cons.
    replace (concat ((l :: pre ++ v :: post ++ [t]) :: blocks) ++ tail)
      with (l :: pre ++ v :: post ++ t :: (concat blocks ++ tail))
      by (simpl; by simplify_list_eq).
    rewrite loops_run.
    rewrite (interval_once _ _ _ _ result l v g a m pre post
               (t :: concat blocks ++ tail) Hl Ha Hpre Hv Hpost Ht).
    simpl. rewrite <- loops_run, IH. done.
Qed.

(** An interval cut short by the end of the file: [yield result] runs on
    what [result] held before. *)
Lemma loops_truncated (result : option R) (head rest : list string)
    (l : string) (g : G) (a : A) :
  Forall (λ x, pattern x ≫= entry = None) head →
  pattern l = Some g → entry g = Some a →
  Forall (λ x, next_pattern x = None) rest →
  loops result (head ++ l :: rest) = yield result ([], None).
Proof.
  intros Hhead Hl Ha Hrest. rewrite loops_passes by done.
  rewrite loops_run. simpl. rewrite Hl, Ha.
  rewrite <- (app_nil_r rest). by rewrite find_data_passes.
Qed.

(** Once a record is held, nothing raises. *)
Lemma run_held_no_exception (lines : list string) (at_ : cursor) (r : R) :
  (run at_ (Some r) lines).2 = None.
Proof.
  revert at_ r. induction lines as [|x lines IH]; intros at_ r.
  - by destruct at_.
  - destruct at_ as [|a|]; simpl.
    + destruct (pattern x) as [g|]; [destruct (entry g)|]; apply IH.
    + destruct (next_pattern x); apply IH.
    + destruct (pattern x); [|apply IH]. simpl. apply IH.
Qed.

(** The one exception of the loops is the unbound [result], met before any
    record is yielded. *)
Lemma run_exception (lines : list string) (at_ : cursor) (result : option R)
    (e : Py.exn) :
  (run at_ result lines).2 = Some e →
  e = Py.UnboundLocalError ∧ result = None ∧ (run at_ result lines).1 = [].
Proof.
  destruct result as [r|]; [by rewrite run_held_no_exception|].
  revert at_. induction lines as [|x lines IH]; intros at_.
  - destruct at_; simpl; [done|by intros [= <-]..].
  - destruct at_ as [|a|]; simpl.
    + destruct (pattern x) as [g|]; [destruct (entry g)|]; apply IH.
    + destruct (next_pattern x); [|apply IH].
      by rewrite run_held_no_exception.
    + destruct (pattern x); [|apply IH]. simpl. by intros [= <-].
Qed.

(** No more records than lines kept by the outer loop. *)
Lemma run_count (lines : list string) (at_ : cursor) (result : option R) :
  length (run at_ result lines).1
  ≤ match at_ with
    | FindEntry => kept_lines lines
    | _ => S (kept_lines lines)
    end.
Proof.
  revert at_ result. induction lines as [|x lines IH]; intros at_ result.
  - destruct at_, result; simpl; lia.
  - destruct at_ as [|a|]; simpl.
    + destruct (pattern x) as [g|]; simpl.
      * destruct (entry g) as [a|].
        -- apply (IH (FindData a)).
        -- apply (IH FindEntry).
      * apply (IH FindEntry).
    + specialize (IH (FindData a) result) as IH1.
      destruct (next_pattern x) as [v|].
      * specialize (IH SeekCopy (Some (build a v))). simpl in IH.
        destruct (pattern x ≫= entry); lia.
      * simpl in IH1. destruct (pattern x ≫= entry); lia.
    + destruct (pattern x) as [g|] eqn:Hx; simpl.
      * specialize (IH FindEntry result). simpl in IH.
        destruct result; simpl; destruct (entry g); lia.
      * specialize (IH SeekCopy result). simpl in IH. lia.
Qed.

End Blocks.

Section CgBlocks.

Import Py DashboardRunLog.

Variable sensor_id : string.
Variable circumference : Q.

Abbreviation cg_run := (cg_speed_loop sensor_id circumference).
Abbreviation cg_loops := (cg_loops sensor_id circumference).
Abbreviation cg_block_of := (cg_block_of sensor_id circumference).

Lemma cg_loops_passes (head rest : list string) :
  Forall (λ x, speed_pattern sensor_id x ≫= speed_entry = None) head →
  cg_loops (head ++ rest) = cg_loops rest.
Proof.
  rewrite !cg_loops_run.
  induction 1 as [|x head Hx _ IH]; simpl; [done|].
  destruct (speed_pattern sensor_id x) as [g|]; [|done].
  simpl in Hx. by rewrite Hx.
Qed.

Lemma cg_loops_blocks (blocks : list (list string))
    (records : list SpeedSensorRecord.t) (tail : list string) :
  Forall2 cg_block_of blocks records →
  cg_loops (concat blocks ++ tail)
  = let k := cg_loops tail in (records ++ k.1, k.2).
Proof.
  induction 1 as [|b r blocks records Hb _ IH].
  - simpl. by destruct (cg_loops tail).
  - destruct Hb as (l & g & a & body & m & t
                    & -> & Hl & Ha & Hbody & Hm & Ht & ->).
    replace (concat ((l :: body ++ [t]) :: blocks) ++ tail)
      with (l :: body ++ t :: (concat blocks ++ tail))
      by (simpl; by simplify_list_eq).
    rewrite cg_loops_run.
    rewrite (cg_interval _ _ l g a m body (t :: concat blocks ++ tail)
               Hl Ha Hbody Hm Ht).
    simpl. rewrite <- cg_loops_run, IH. done.
Qed.

(** The loops of [cg_speed] raise nothing. *)
Lemma cg_run_no_exception (lines : list string) (at_ : cg_cursor) :
  (cg_run at_ lines).2 = None.
Proof.
  revert at_. induction lines as [|x lines IH]; intros at_.
  - by destruct at_ as [|a [r|]].
  - destruct at_ as [|a result]; simpl.
    + destruct (speed_pattern sensor_id x) as [g|];
        [destruct (speed_entry g)|]; apply IH.
    + destruct result as [r|], (speed_pattern sensor_id x) as [g|];
        try apply IH; destruct (cg_next_pattern sensor_id x); apply IH.
Qed.

Lemma cg_run_count (lines : list string) (at_ : cg_cursor) :
  length (cg_run at_ lines).1
  ≤ match at_ with
    | CgFindEntry => kept_lines (speed_pattern sensor_id) speed_entry lines
    | _ => S (kept_lines (speed_pattern sensor_id) speed_entry lines)
    end.
Proof.
  revert at_. induction lines as [|x lines IH]; intros at_.
  - destruct at_ as [|a [r|]]; simpl; lia.
  - destruct at_ as [|a result]; simpl.
    + destruct (speed_pattern sensor_id x) as [g|]; simpl.
      * destruct (speed_entry g) as [a|].
        -- apply (IH (CgLatest a None)).
        -- apply (IH CgFindEntry).
      * apply (IH CgFindEntry).
    + assert (Hstep : ∀ result',
                length (cg_run (CgLatest a result') lines).1
                ≤ S (kept_lines (speed_pattern sensor_id) speed_entry
                       (x :: lines))).
      { intros result'. specialize (IH (CgLatest a result')). simpl in *.
        destruct (speed_pattern sensor_id x ≫= speed_entry); lia. }
      simpl in Hstep.
      destruct result as [r|], (speed_pattern sensor_id x) as [g|] eqn:Hx;
        try (destruct (cg_next_pattern sensor_id x); apply Hstep).
      specialize (IH CgFindEntry). simpl in *.
      destruct (speed_entry g); simpl; lia.
Qed.

End CgBlocks.

Section WholeFiles.

Import Text Py DashboardRunLog.

Lemma speed_by_loops lines sensor_id c :
  speed_settings lines = Returned (sensor_id, c) →
  speed lines = speed_loops sensor_id c None lines.
Proof. unfold speed. by intros ->. Qed.

Lemma power_by_loops lines sensor_id offset :
  power_settings lines = Returned (sensor_id, offset) →
  power lines = power_loops sensor_id None lines.
Proof. unfold power. by intros ->. Qed.

Lemma cg_speed_by_loops lines sensor_id c :
  speed_settings lines = Returned (sensor_id, c) →
  cg_speed lines = cg_loops sensor_id c lines.
Proof. unfold cg_speed. by intros ->. Qed.











(** X6: no generator yields more records than the file has announcement
    lines that its outer loop would keep (timer not zero; for [power],
    event count not the text 0). *)
Theorem records_bounded_by_kept_lines :
  (∀ lines sensor_id circumference,
     speed_settings lines = Returned (sensor_id, circumference) →
     length (speed lines).1
     ≤ kept_lines (speed_pattern sensor_id) speed_entry lines
     ∧ length (cg_speed lines).1
       ≤ kept_lines (speed_pattern sensor_id) speed_entry lines)
  ∧ (∀ lines sensor_id offset,
       power_settings lines = Returned (sensor_id, offset) →
       length (power lines).1
       ≤ kept_lines (power_pattern sensor_id) power_entry lines).
Proof.
  split.
  - intros lines sensor_id c Hs. split.
    + rewrite (speed_unfold _ _ _ Hs). apply (run_count _ _ _ _ _ FindEntry).
    + rewrite (cg_speed_unfold _ _ _ Hs).
      apply (cg_run_count _ _ _ CgFindEntry).
  - intros lines sensor_id o Hs.
    rewrite (power_unfold _ _ _ Hs). apply (run_count _ _ _ _ _ FindEntry).
Qed.

Lemma records_bounded_by_kept_lines_witness :
  (length (speed Sample.two_intervals).1
   ≤ kept_lines (speed_pattern "12345") speed_entry Sample.two_intervals
   ∧ length (cg_speed Sample.two_intervals).1
     ≤ kept_lines (speed_pattern "12345") speed_entry Sample.two_intervals)
  ∧ length (power Sample.power_ticks).1
    ≤ kept_lines (power_pattern "777") power_entry Sample.power_ticks.
Proof.
  split.
  - apply (proj1 records_bounded_by_kept_lines Sample.two_intervals "12345"
             (421 # 200)).
    reflexivity.
  - apply (proj2 records_bounded_by_kept_lines Sample.power_ticks "777"
             512%Z).
    reflexivity.
Defined.

End WholeFiles.

(** ** Missing settings *)

Section MissingSettings.

Import Text Py DashboardRunLog Main Table.

Lemma settings_data_without_time (lines : list string) :
  Forall (λ l, starts_with time_and_date l = false) lines →
  settings_data lines = ∅.
Proof.
  intros H. unfold settings_data, settings. by rewrite skip_to_absent.
Qed.

Lemma settings_data_without_rider (lines : list string) (k : string) :
  Forall (λ l, starts_with rider_and_device l = false) lines →
  is_Some (settings_data lines !! k) →
  k ∈ ["start date"; "start time"; "run number"].
Proof.
  intros H. unfold settings_data, settings.
  pose proof (read_section_Forall _ time_entry ∅ _
                (skip_to_Forall _ time_and_date _ H)) as Hrest.
  pose proof (read_section_keys
                (λ k, k ∈ ["start date"; "start time"; "run number"])
                time_entry (skip_to time_and_date lines) ∅
                time_entry_label) as Hkeys.
  destruct (read_section time_entry ∅ (skip_to time_and_date lines))
    as [d rest].
  simpl in Hrest, Hkeys. rewrite (skip_to_absent _ _ Hrest). simpl.
  apply Hkeys. intros k'. rewrite lookup_empty. by intros [? ?].
Qed.

Lemma speed_without_key (lines : list string) :
  settings_data lines !! "speed" = None →
  speed lines = ([], Some KeyError) ∧ cg_speed lines = ([], Some KeyError).
Proof.
  intros H. unfold speed, cg_speed, speed_settings.
  rewrite settings_returned. simpl.
  unfold speed_params, getitem. by rewrite H.
Qed.

Lemma power_without_key (lines : list string) :
  settings_data lines !! "power" = None →
  power lines = ([], Some KeyError).
Proof.
  intros H. unfold power, power_settings.
  rewrite settings_returned. simpl.
  unfold power_params, getitem. by rewrite H.
Qed.

(** X7: a file in which the marker of the first section, or the marker of
    the second section, is never found announces no sensor: the three
    generators raise KeyError before they read a line of the body, and so
    do [main] and [to_df]. *)
Theorem missing_section_is_a_key_error (lines : list string) :
  Forall (λ l, starts_with time_and_date l = false) lines
  ∨ Forall (λ l, starts_with rider_and_device l = false) lines →
  speed lines = ([], Some KeyError)
  ∧ cg_speed lines = ([], Some KeyError)
  ∧ power lines = ([], Some KeyError)
  ∧ main lines = Raised KeyError
  ∧ to_df lines = Raised KeyError.
Proof.
  intros H.
  assert (Hkey : ∀ k, k = "speed" ∨ k = "power" →
                      settings_data lines !! k = None).
  { intros k Hk. destruct H as [H|H].
    - by rewrite settings_data_without_time.
    - apply eq_None_not_Some. intros Hsome.
      apply (settings_data_without_rider _ _ H) in Hsome.
      set_unfold. destruct Hk as [-> | ->];
        destruct Hsome as [?|[?|[?|[]]]]; done. }
  destruct (speed_without_key lines) as [Hspeed Hcg]; [by apply Hkey; left|].
  pose proof (power_without_key lines (Hkey _ (or_intror eq_refl))) as Hpower.
  split_and!; try done.
  - unfold main, list_of. by rewrite Hspeed.
  - unfold to_df, list_of. by rewrite Hspeed.
Qed.

Lemma missing_section_is_a_key_error_witness :
  speed Sample.headless = ([], Some KeyError)
  ∧ cg_speed Sample.headless = ([], Some KeyError)
  ∧ power Sample.headless = ([], Some KeyError)
  ∧ main Sample.headless = Raised KeyError
  ∧ to_df Sample.headless = Raised KeyError.
Proof.
  apply (missing_section_is_a_key_error Sample.headless).
  left. repeat constructor.
Defined.

Lemma cg_speed_raises_as_settings (lines : list string) (e : exn) :
  (cg_speed lines).2 = Some e → speed_settings lines = Raised e.
Proof.
  unfold cg_speed.
  destruct (speed_settings lines) as [[sensor_id c]|e']; simpl.
  - by rewrite cg_loops_run, cg_run_no_exception.
  - by intros [= ->].
Qed.



End MissingSettings.

(** ** What the mapping holds *)

Section Mapping.

Import Text Py DashboardRunLog.

Lemma skip_to_found (marker tm : string) (a rest : list string) :
  Forall (λ l, starts_with marker l = false) a →
  starts_with marker tm = true →
  skip_to marker (a ++ tm :: rest) = rest.
Proof.
  intros Ha Htm. rewrite skip_to_passes by done. simpl. by rewrite Htm.
Qed.

Lemma read_section_rest (entry : string → option (string * setting))
    data (s rest : list string) (e : string) :
  Forall (λ l, starts_with section_end l = false) s →
  starts_with section_end e = true →
  (read_section entry data (s ++ e :: rest)).2 = rest.
Proof.
  intros Hs He. revert data.
  induction Hs as [|l s Hl _ IH]; intros data; simpl.
  - by rewrite He.
  - rewrite Hl. destruct (entry l) as [[label v]|]; apply IH.
Qed.

(** A key keeps its value down the section while no line sets it again. *)
Lemma read_section_keeps (entry : string → option (string * setting))
    (k : string) (v : setting) (post tail : list string) data :
  data !! k = Some v →
  Forall (λ x, starts_with section_end x = false
               ∧ ∀ v', entry x ≠ Some (k, v')) post →
  match tail with
  | [] => True
  | e :: _ => starts_with section_end e = true
  end →
  (read_section entry data (post ++ tail)).1 !! k = Some v.
Proof.
  intros Hk Hpost Htail. revert data Hk.
  induction Hpost as [|x post [Hx Hx'] _ IH]; intros data Hk; simpl.
  - destruct tail as [|e tail]; [done|]. simpl. by rewrite Htail.
  - rewrite Hx. destruct (entry x) as [[label v']|] eqn:He; [|by apply IH].
    apply IH. rewrite lookup_insert_ne; [done|].
    intros ->. by apply (Hx' v').
Qed.

Lemma read_section_sets (entry : string → option (string * setting))
    (k : string) (v : setting) (pre post tail : list string) (l : string)
    data :
  Forall (λ x, starts_with section_end x = false) pre →
  starts_with section_end l = false →
  entry l = Some (k, v) →
  Forall (λ x, starts_with section_end x = false
               ∧ ∀ v', entry x ≠ Some (k, v')) post →
  match tail with
  | [] => True
  | e :: _ => starts_with section_end e = true
  end →
  (read_section entry data (pre ++ l :: post ++ tail)).1 !! k = Some v.
Proof.
  intros Hpre Hl He Hpost Htail. revert data.
  induction Hpre as [|x pre Hx _ IH]; intros data; simpl.
  - rewrite Hl, He. apply read_section_keeps; [|done..].
    apply lookup_insert_eq.
  - rewrite Hx. destruct (entry x) as [[label v']|]; apply IH.
Qed.

(** X9: the mapping gives, for a label of the second section, the value of
    the last line of the section that sets it: a later line with the same
    label replaces the earlier one. *)
Theorem settings_last_entry_wins
    (a s1 b pre post tail : list string) (tm e1 rm l k : string)
    (v : setting) :
  Forall (λ x, starts_with time_and_date x = false) a →
  starts_with time_and_date tm = true →
  Forall (λ x, starts_with section_end x = false) s1 →
  starts_with section_end e1 = true →
  Forall (λ x, starts_with rider_and_device x = false) b →
  starts_with rider_and_device rm = true →
  Forall (λ x, starts_with section_end x = false) pre →
  starts_with section_end l = false →
  rider_entry l = Some (k, v) →
  Forall (λ x, starts_with section_end x = false
               ∧ ∀ v', rider_entry x ≠ Some (k, v')) post →
  match tail with
  | [] => True
  | e :: _ => starts_with section_end e = true
  end →
  ∃ data,
    settings (a ++ tm :: s1 ++ e1 :: b ++ rm :: pre ++ l :: post ++ tail)
    = Returned data
    ∧ data !! k = Some v.
Proof.
  intros Ha Htm Hs1 He1 Hb Hrm Hpre Hl Hk Hpost Htail.
  eexists. split; [apply settings_returned|].
  unfold settings_data, settings.
  rewrite skip_to_found by done.
  pose proof (read_section_rest time_entry ∅ s1
                (b ++ rm :: pre ++ l :: post ++ tail) e1 Hs1 He1) as Hrest.
  destruct (read_section time_entry ∅
              (s1 ++ e1 :: b ++ rm :: pre ++ l :: post ++ tail)) as [d rest].
  simpl in Hrest. subst rest.
  rewrite skip_to_found by done.
  pose proof (read_section_sets rider_entry k v pre post tail l d
                Hpre Hl Hk Hpost Htail) as Hlast.
  by destruct (read_section rider_entry d (pre ++ l :: post ++ tail)).
Qed.

Lemma settings_last_entry_wins_witness :
  ∃ data,
  settings
    ([] ++ line ["#"; "Time and Date"]
     :: [line ["#"; ""; "Start Date:"; "2023-11-14"]] ++ line ["###"]
     :: [] ++ line ["#"; "Rider and Device Data"]
     :: [line ["#"; ""; "SPEED"; "BSPD_1"; "2.000"; "0"]]
     ++ line ["#"; ""; "SPEED"; "BSPD_12345"; "2.105"; "0"]
     :: [line ["#"; ""; "POWER"; "PWR_777"; "512"; "0"]] ++ [line ["###"]])
  = Returned data
  ∧ data !! "speed" = Some (Triple "BSPD_12345" "2.105" "0").
Proof.
  apply (settings_last_entry_wins [] _ [] _ _ [line ["###"]]
           (line ["#"; "Time and Date"]) (line ["###"])
           (line ["#"; "Rider and Device Data"])
           (line ["#"; ""; "SPEED"; "BSPD_12345"; "2.105"; "0"])
           "speed" (Triple "BSPD_12345" "2.105" "0")).
  - constructor.
  - reflexivity.
  - repeat constructor.
  - reflexivity.
  - constructor.
  - reflexivity.
  - repeat constructor.
  - reflexivity.
  - reflexivity.
  - repeat constructor. intros v'. discriminate.
  - reflexivity.
Defined.

Lemma lower_char_not_upper (c : ascii) : is_upper (lower_char c) = false.
Proof. by destruct c as [[] [] [] [] [] [] [] []]. Qed.

Lemma lower_lower_case (s : string) : lower_case (lower s) = true.
Proof.
  induction s as [|c s IH]; [done|].
  unfold lower_case in *. simpl. by rewrite lower_char_not_upper, IH.
Qed.

Lemma split_no_tab (s : string) :
  Forall (λ f, forallb_str not_tab f = true) (split TAB s).
Proof.
  induction s as [|c s IH]; simpl; [by repeat constructor|].
  destruct (Ascii.eqb c TAB) eqn:Hc; [by constructor|].
  destruct (split TAB s) as [|f fs].
  - repeat constructor. simpl. unfold not_tab. by rewrite Hc.
  - apply Forall_cons in IH as [Hf Hfs]. constructor; [|done].
    simpl. unfold not_tab at 1. by rewrite Hc.
Qed.

Lemma time_entry_shape (l k : string) (v : setting) :
  time_entry l = Some (k, v) →
  lower_case k = true ∧ Forall (λ s, field s = true) (setting_strings v).
Proof.
  unfold time_entry. intros H.
  apply bind_Some in H as (s0 & _ & H).
  apply bind_Some in H as (s1 & _ & H).
  apply bind_Some in H as (s2 & _ & H).
  apply bind_Some in H as ([label s3] & _ & H).
  apply bind_Some in H as (s4 & _ & H).
  apply bind_Some in H as (value & _ & H).
  destruct (nonempty value && forallb_str not_tab value) eqn:Hv; [|done].
  injection H as <- <-. split; [apply lower_lower_case|].
  by repeat constructor.
Qed.

Lemma rider_entry_shape (l k : string) (v : setting) :
  rider_entry l = Some (k, v) →
  lower_case k = true ∧ Forall (λ s, field s = true) (setting_strings v).
Proof.
  unfold rider_entry. intros H.
  apply bind_Some in H as (s0 & _ & H).
  apply bind_Some in H as (s1 & _ & H).
  apply bind_Some in H as (s2 & _ & H).
  apply bind_Some in H as ([label s3] & _ & H).
  apply bind_Some in H as (s4 & _ & H).
  apply bind_Some in H as (body & _ & H).
  pose proof (split_no_tab body) as Hsplit.
  destruct (split TAB body) as [|f0 [|f1 [|f2 [|f3 fs]]]]; try done.
  - destruct (nonempty f0) eqn:H0; [|done]. injection H as <- <-.
    split; [apply lower_lower_case|].
    apply Forall_cons in Hsplit as [Hf0 _].
    repeat constructor. unfold field. by rewrite H0, Hf0.
  - destruct (nonempty f0) eqn:H0; [|done].
    destruct (nonempty f1) eqn:H1; [|done].
    destruct (nonempty f2) eqn:H2; [|done]. injection H as <- <-.
    split; [apply lower_lower_case|].
    apply Forall_cons in Hsplit as [Hf0 [Hf1 [Hf2 _]%Forall_cons]%Forall_cons].
    repeat constructor; unfold field; by rewrite ?H0, ?H1, ?H2, ?Hf0, ?Hf1, ?Hf2.
Qed.

(** What holds of every entry holds of the section. *)
Lemma read_section_all (P : string → setting → Prop)
    (entry : string → option (string * setting)) (lines : list string) data :
  (∀ l k v, entry l = Some (k, v) → P k v) →
  (∀ k v, data !! k = Some v → P k v) →
  ∀ k v, (read_section entry data lines).1 !! k = Some v → P k v.
Proof.
  intros Hentry. revert data.
  induction lines as [|l lines IH]; intros data Hdata; simpl; [done|].
  destruct (starts_with section_end l); [done|].
  destruct (entry l) as [[label v]|] eqn:Hl; [|by apply IH].
  apply IH. intros k v'. destruct (decide (label = k)) as [<-|Hne].
  - rewrite lookup_insert_eq. intros [= <-]. by eapply Hentry.
  - rewrite lookup_insert_ne by done. apply Hdata.
Qed.

(** X10: in the mapping that [settings] returns every key is lower case,
    and every string held, value or parameter, is not empty and holds no
    tab. *)
Theorem settings_keys_and_values (lines : list string) (k : string)
    (v : setting) :
  settings_data lines !! k = Some v →
  settings lines = Returned (settings_data lines)
  ∧ lower_case k = true
  ∧ Forall (λ s, field s = true) (setting_strings v).
Proof.
  intros H. split; [apply settings_returned|].
  revert H. unfold settings_data, settings.
  pose proof (read_section_all
                (λ k v, lower_case k = true
                        ∧ Forall (λ s, field s = true) (setting_strings v))
                time_entry (skip_to time_and_date lines) ∅
                time_entry_shape) as H1.
  destruct (read_section time_entry ∅ (skip_to time_and_date lines))
    as [d rest].
  pose proof (read_section_all
                (λ k v, lower_case k = true
                        ∧ Forall (λ s, field s = true) (setting_strings v))
                rider_entry (skip_to rider_and_device rest) d
                rider_entry_shape) as H2.
  destruct (read_section rider_entry d (skip_to rider_and_device rest))
    as [d' rest'].
  simpl in *. apply H2. apply H1. intros k' v'. by rewrite lookup_empty.
Qed.

Lemma settings_keys_and_values_witness :
  settings Sample.header = Returned (settings_data Sample.header)
  ∧ lower_case "speed" = true
  ∧ Forall (λ s, field s = true)
      (setting_strings (Triple "BSPD_12345" "2.105" "0")).
Proof.
  apply (settings_keys_and_values Sample.header "speed"
           (Triple "BSPD_12345" "2.105" "0")).
  reflexivity.
Defined.

End Mapping.

(** ** The numbers of a record *)

Section Numbers.

Import Text Py DashboardRunLog.

Lemma span_all (p : ascii → bool) (s : string) :
  forallb_str p (span p s).1 = true.
Proof.
  induction s as [|c s IH]; simpl; [done|].
  destruct (p c) eqn:Hc; [|done].
  destruct (span p s) as [a b]. simpl in *. by rewrite Hc, IH.
Qed.

Lemma many1_all (p : ascii → bool) (s a b : string) :
  many1 p s = Some (a, b) → forallb_str p a = true.
Proof.
  unfold many1. pose proof (span_all p s) as H.
  destruct (span p s) as [[|c a'] b']; [done|].
  by intros [= <- <-].
Qed.

Lemma decimal_all (s ip fp rest : string) :
  decimal s = Some (ip, fp, rest) →
  all_digits ip = true ∧ all_digits fp = true.
Proof.
  unfold decimal. intros H.
  apply bind_Some in H as ([ip' s1] & Hip & H).
  apply bind_Some in H as (s2 & _ & H).
  apply bind_Some in H as ([fp' s3] & Hfp & H).
  injection H as <- <- <-.
  split; [by eapply many1_all|by eapply many1_all].
Qed.

Lemma digit_val_range (c : ascii) :
  is_digit c = true → (0 ≤ digit_val c ≤ 9)%Z.
Proof.
  destruct c as [[] [] [] [] [] [] [] []]; try done; by vm_compute.
Qed.

Lemma digits_val_nonneg (s : string) (acc : Z) :
  (0 ≤ acc)%Z → all_digits s = true → (0 ≤ digits_val acc s)%Z.
Proof.
  revert acc. induction s as [|c s IH]; intros acc Hacc; simpl; [done|].
  intros [Hc Hs]%andb_prop. apply IH; [|done].
  apply digit_val_range in Hc. lia.
Qed.

Lemma all_digits_app (s t : string) :
  all_digits s = true → all_digits t = true → all_digits (s +:+ t) = true.
Proof.
  induction s as [|c s IH]; simpl; [done|].
  intros [Hc Hs]%andb_prop Ht. unfold all_digits in *. simpl.
  by rewrite Hc, IH.
Qed.

Lemma float_of_decimal_nonneg (ip fp : string) :
  all_digits ip = true → all_digits fp = true →
  (0 <= float_of_decimal (ip, fp))%Q.
Proof.
  intros Hip Hfp. unfold float_of_decimal. rewrite Qred_correct.
  unfold Qle. simpl. rewrite Z.mul_1_r.
  apply digits_val_nonneg; [done|by apply all_digits_app].
Qed.

(** Rounding to the nearest never goes below the integer part. *)
Lemma round_half_even_floor (q : Q) :
  (Qnum q / Z.pos (Qden q) ≤ round_half_even q)%Z.
Proof.
  unfold round_half_even.
  destruct (2 * (Qnum q mod Z.pos (Qden q)) ?= Z.pos (Qden q))%Z;
    [destruct (Z.even _)|..]; lia.
Qed.

Lemma fromtimestamp_nonneg (q : Q) : (0 <= q)%Q → (0 ≤ fromtimestamp q)%Z.
Proof.
  intros Hq. unfold fromtimestamp.
  etrans; [|apply round_half_even_floor].
  apply Z.div_pos; [|done].
  unfold Qle in Hq. simpl in *. nia.
Qed.

Lemma round6_nonneg (q : Q) : (0 <= q)%Q → (0 <= round6 q)%Q.
Proof.
  intros Hq. unfold round6. rewrite Qred_correct.
  unfold Qle. simpl. rewrite Z.mul_1_r.
  etrans; [|apply round_half_even_floor].
  apply Z.div_pos; [|done].
  unfold Qle in Hq. simpl in *. nia.
Qed.

(** A timer of one tick or more gives an elapsed time above zero: one tick
    is 977 microseconds. *)
Lemma elapsed_time_positive (timer : Z) :
  (1 ≤ timer)%Z → (0 < round6 (inject_Z timer / inject_Z 1024))%Q.
Proof.
  intros Ht. unfold round6. rewrite Qred_correct.
  unfold Qlt. simpl. rewrite Z.mul_1_r.
  eapply Z.lt_le_trans; [|apply round_half_even_floor].
  simpl. apply Z.div_str_pos. lia.
Qed.

Lemma speed_pattern_digits (sensor_id l timer count : string) :
  speed_pattern sensor_id l = Some (timer, count) →
  all_digits timer = true ∧ all_digits count = true.
Proof.
  unfold speed_pattern. intros H.
  apply bind_Some in H as (? & _ & H).
  apply bind_Some in H as ([[? ?] ?] & _ & H).
  do 5 apply bind_Some in H as (? & _ & H).
  apply bind_Some in H as ([timer' ?] & Ht & H).
  apply bind_Some in H as (? & _ & H).
  apply bind_Some in H as ([count' ?] & Hc & H).
  do 2 apply bind_Some in H as (? & _ & H).
  injection H as <- <-.
  split; by eapply many1_all.
Qed.

Lemma power_pattern_digits (sensor_id l event_count elapsed : string) :
  power_pattern sensor_id l = Some (event_count, elapsed) →
  all_digits event_count = true ∧ all_digits elapsed = true.
Proof.
  unfold power_pattern. intros H.
  apply bind_Some in H as (? & _ & H).
  apply bind_Some in H as ([[? ?] ?] & _ & H).
  do 3 apply bind_Some in H as (? & _ & H).
  apply bind_Some in H as ([ec ?] & Hec & H).
  apply bind_Some in H as (? & _ & H).
  apply bind_Some in H as ([el ?] & Hel & H).
  apply bind_Some in H as (? & _ & H).
  apply bind_Some in H as ([? ?] & _ & H).
  apply bind_Some in H as (? & _ & H).
  apply bind_Some in H as ([? ?] & _ & H).
  apply bind_Some in H as (? & _ & H).
  injection H as <- <-.
  split; by eapply many1_all.
Qed.

Lemma value_tail_digits (s : string) m :
  value_tail s = Some m →
  (all_digits m.1.1 = true ∧ all_digits m.1.2 = true)
  ∧ (all_digits m.2.1 = true ∧ all_digits m.2.2 = true).
Proof.
  unfold value_tail. intros H.
  apply bind_Some in H as (? & _ & H).
  apply bind_Some in H as ([[ti tf] ?] & Ht & H).
  apply bind_Some in H as (? & _ & H).
  apply bind_Some in H as ([[vi vf] ?] & Hv & H).
  apply bind_Some in H as (? & _ & H).
  injection H as <-. simpl.
  split; by eapply decimal_all.
Qed.

Lemma speed_next_pattern_digits (sensor_id l : string) m :
  speed_next_pattern sensor_id l = Some m →
  (all_digits m.1.1 = true ∧ all_digits m.1.2 = true)
  ∧ (all_digits m.2.1 = true ∧ all_digits m.2.2 = true).
Proof.
  unfold speed_next_pattern. intros H.
  do 2 apply bind_Some in H as (? & _ & H).
  apply bind_Some in H as ([? ?] & _ & H).
  do 2 apply bind_Some in H as (? & _ & H).
  by apply value_tail_digits in H.
Qed.

Lemma power_next_pattern_digits (sensor_id l : string) m :
  power_next_pattern sensor_id l = Some m →
  (all_digits m.1.1 = true ∧ all_digits m.1.2 = true)
  ∧ (all_digits m.2.1 = true ∧ all_digits m.2.2 = true).
Proof.
  unfold power_next_pattern. intros H.
  do 2 apply bind_Some in H as (? & _ & H).
  apply bind_Some in H as ([? ?] & _ & H).
  do 2 apply bind_Some in H as (? & _ & H).
  by apply value_tail_digits in H.
Qed.

Lemma cg_next_pattern_digits (sensor_id l : string) m :
  cg_next_pattern sensor_id l = Some m →
  (all_digits m.1.1 = true ∧ all_digits m.1.2 = true)
  ∧ (all_digits m.2.1 = true ∧ all_digits m.2.2 = true).
Proof.
  unfold cg_next_pattern. intros H.
  apply bind_Some in H as (? & _ & H).
  apply bind_Some in H as ([? ?] & _ & H).
  do 2 apply bind_Some in H as (? & _ & H).
  by apply value_tail_digits in H.
Qed.

Lemma speed_record_numbers c g a m :
  (all_digits g.1 = true ∧ all_digits g.2 = true) →
  speed_entry g = Some a →
  (all_digits m.1.1 = true ∧ all_digits m.1.2 = true)
  ∧ (all_digits m.2.1 = true ∧ all_digits m.2.2 = true) →
  let r := speed_record c a m in
  SpeedSensorRecord.circumference r = c
  ∧ (0 < SpeedSensorRecord.elapsed_time r)%Q
  ∧ (0 ≤ SpeedSensorRecord.count r)%Z
  ∧ (0 <= SpeedSensorRecord.value r)%Q
  ∧ (0 ≤ SpeedSensorRecord.timestamp r)%Z.
Proof.
  intros [Ht Hc] Ha [[Hti Htf] [Hvi Hvf]].
  apply speed_entry_inv in Ha as [-> Hz].
  destruct m as [[ti tf] [vi vf]]. simpl in *.
  pose proof (digits_val_nonneg g.1 0 (Z.le_refl 0) Ht) as Ht'.
  split_and!; [done| | | |].
  - apply elapsed_time_positive. unfold int_of_digits in *. lia.
  - by apply digits_val_nonneg.
  - by apply float_of_decimal_nonneg.
  - by apply fromtimestamp_nonneg, float_of_decimal_nonneg.
Qed.

(** X11: every record of [speed] and of [cg_speed] carries the
    circumference of the settings, an elapsed time above zero, and a count,
    a value and a timestamp that are not negative; every record of [power]
    carries an elapsed time, an event count, a value and a timestamp that
    are not negative. *)
Theorem records_carry_sound_numbers :
  (∀ lines sensor_id circumference r,
     speed_settings lines = Returned (sensor_id, circumference) →
     r ∈ (speed lines).1 ∨ r ∈ (cg_speed lines).1 →
     SpeedSensorRecord.circumference r = circumference
     ∧ (0 < SpeedSensorRecord.elapsed_time r)%Q
     ∧ (0 ≤ SpeedSensorRecord.count r)%Z
     ∧ (0 <= SpeedSensorRecord.value r)%Q
     ∧ (0 ≤ SpeedSensorRecord.timestamp r)%Z)
  ∧ (∀ lines sensor_id offset r,
       power_settings lines = Returned (sensor_id, offset) →
       r ∈ (power lines).1 →
       (0 <= PowerSensorRecord.elapsed_time r)%Q
       ∧ (0 ≤ PowerSensorRecord.event_count r)%Z
       ∧ (0 <= PowerSensorRecord.value r)%Q
       ∧ (0 ≤ PowerSensorRecord.timestamp r)%Z).
Proof.
  split.
  - intros lines sensor_id c r Hs [Hr|Hr].
    + rewrite (speed_unfold _ _ _ Hs) in Hr.
      apply run_paired_top in Hr
        as (pre & l & mid & v & post & [timer count] & a & m
            & -> & Hl & Ha & _ & Hv & ->).
      apply speed_record_numbers with (g := (timer, count)); [|done|].
      * by apply speed_pattern_digits in Hl.
      * by apply speed_next_pattern_digits in Hv.
    + rewrite (cg_speed_unfold _ _ _ Hs) in Hr.
      apply cg_run_paired_top in Hr
        as (pre & l & mid & v & post & [timer count] & a & m
            & -> & Hl & Ha & Hv & ->).
      apply speed_record_numbers with (g := (timer, count)); [|done|].
      * by apply speed_pattern_digits in Hl.
      * by apply cg_next_pattern_digits in Hv.
  - intros lines sensor_id o r Hs Hr.
    rewrite (power_unfold _ _ _ Hs) in Hr.
    apply run_paired_top in Hr
      as (pre & l & mid & v & post & [event_count timer] & a & m
          & -> & Hl & Ha & _ & Hv & ->).
    apply power_entry_inv in Ha as [-> _].
    apply power_pattern_digits in Hl as [Hec Hel].
    apply power_next_pattern_digits in Hv as [[Hti Htf] [Hvi Hvf]].
    destruct m as [[ti tf] [vi vf]]. simpl in *.
    split_and!.
    + apply round6_nonneg.
      pose proof (digits_val_nonneg timer 0 (Z.le_refl 0) Hel).
      unfold Qle, int_of_digits. simpl. lia.
    + by apply digits_val_nonneg.
    + by apply float_of_decimal_nonneg.
    + by apply fromtimestamp_nonneg, float_of_decimal_nonneg.
Qed.

Lemma records_carry_sound_numbers_witness :
  (let r := SpeedSensorRecord.mk 1700000000500000%Z (19753 # 2000) 2 50%Z
              (421 # 200) in
   SpeedSensorRecord.circumference r = 421 # 200
   ∧ (0 < SpeedSensorRecord.elapsed_time r)%Q
   ∧ (0 ≤ SpeedSensorRecord.count r)%Z
   ∧ (0 <= SpeedSensorRecord.value r)%Q
   ∧ (0 ≤ SpeedSensorRecord.timestamp r)%Z)
  ∧ (let r := PowerSensorRecord.mk 1700000001200000%Z (501 # 2) 7%Z 2 in
     (0 <= PowerSensorRecord.elapsed_time r)%Q
     ∧ (0 ≤ PowerSensorRecord.event_count r)%Z
     ∧ (0 <= PowerSensorRecord.value r)%Q
     ∧ (0 ≤ PowerSensorRecord.timestamp r)%Z).
Proof.
  split.
  - intros r.
    apply (proj1 records_carry_sound_numbers Sample.scenario "12345"
             (421 # 200) r).
    + reflexivity.
    + left. apply list_elem_of_singleton. reflexivity.
  - intros r.
    apply (proj2 records_carry_sound_numbers Sample.power_ticks "777"
             512%Z r).
    + reflexivity.
    + apply list_elem_of_singleton. reflexivity.
Defined.

End Numbers.

(** ** Lines of the header *)

Section HashLines.

Import Text Py DashboardRunLog.

(** A line that starts with [#] matches none of the five patterns of the
    generators. *)
Lemma hash_line_matches_nothing (sensor_id l : string) :
  hash_line l →
  speed_pattern sensor_id l = None
  ∧ speed_next_pattern sensor_id l = None
  ∧ cg_next_pattern sensor_id l = None
  ∧ power_pattern sensor_id l = None
  ∧ power_next_pattern sensor_id l = None.
Proof.
  unfold hash_line, starts_with. intros H.
  destruct (lit "#" l) as [rest|] eqn:Hl; [|done].
  by apply lit_inv in Hl as ->.
Qed.

Lemma cg_run_same_but sensor_id circumference (o1 o2 x y : list string)
    (at_ : cg_cursor) :
  Forall (λ l, speed_pattern sensor_id l = None
               ∧ cg_next_pattern sensor_id l = None) o1 →
  Forall (λ l, speed_pattern sensor_id l = None
               ∧ cg_next_pattern sensor_id l = None) o2 →
  same_but o1 o2 x y →
  cg_speed_loop sensor_id circumference at_ x
  = cg_speed_loop sensor_id circumference at_ y.
Proof.
  intros H1 H2 [->|(p & q & -> & ->)]; [done|].
  assert (Hpass : ∀ o at_,
             Forall (λ l, speed_pattern sensor_id l = None
                          ∧ cg_next_pattern sensor_id l = None) o →
             cg_speed_loop sensor_id circumference at_ (o ++ q)
             = cg_speed_loop sensor_id circumference at_ q).
  { intros o at' Ho. revert at'.
    induction Ho as [|l o [Hl Hl'] _ IH]; intros at'; [done|].
    destruct at' as [|a [r|]]; simpl; rewrite ?Hl, ?Hl'; apply IH. }
  revert at_. induction p as [|c p IH]; intros at_; simpl.
  - by rewrite !Hpass.
  - destruct at_ as [|a result]; simpl.
    + destruct (speed_pattern sensor_id c) as [g|];
        [destruct (speed_entry g)|]; apply IH.
    + destruct result as [r|], (speed_pattern sensor_id c) as [g|];
        try (destruct (cg_next_pattern sensor_id c); apply IH).
      by rewrite IH.
Qed.



End HashLines.

(** ** Lines of another sensor *)

Section OtherSensor.

Import Text Py DashboardRunLog.

Lemma span_stops (p : ascii → bool) (prefix : string) (c : ascii)
    (s : string) :
  forallb_str p prefix = true → p c = false →
  span p (prefix +:+ String c s) = (prefix, String c s).
Proof.
  intros Hp Hc. induction prefix as [|d prefix IH]; simpl.
  - by rewrite Hc.
  - simpl in Hp. apply andb_prop in Hp as [Hd Hp]. by rewrite Hd, IH.
Qed.

Lemma lit_other_id (sensor_id other rest : string) :
  sensor_id ≠ other →
  forallb_str not_tab sensor_id = true →
  forallb_str not_tab other = true →
  lit sensor_id (other +:+ String TAB rest) ≫= tab = None.
Proof.
  assert (Heqb : ∀ c, not_tab c = true → Ascii.eqb TAB c = false
                                          ∧ Ascii.eqb c TAB = false).
  { intros c Hc. unfold not_tab in Hc.
    rewrite (Ascii.eqb_sym TAB c). by destruct (Ascii.eqb c TAB). }
  revert other. induction sensor_id as [|c sensor_id IH]; intros other.
  - destruct other as [|d other]; [done|].
    intros _ _ [Hd _]%andb_prop. apply Heqb in Hd as [Hd _].
    change (String d other +:+ String TAB rest)
      with (String d (other +:+ String TAB rest)).
    cbn -[Ascii.eqb]. by rewrite Hd.
  - intros Hne [Hc Hid]%andb_prop Hother. apply Heqb in Hc as [_ Hc].
    destruct other as [|d other].
    + change ("" +:+ String TAB rest) with (String TAB rest).
      cbn -[Ascii.eqb]. by rewrite Hc.
    + change (String d other +:+ String TAB rest)
        with (String d (other +:+ String TAB rest)).
      cbn -[Ascii.eqb].
      destruct (Ascii.eqb c d) eqn:Hcd; [|done].
      apply Ascii.eqb_eq in Hcd as ->.
      apply andb_prop in Hother as [_ Hother].
      apply IH; [|done..]. by intros ->.
Qed.

Lemma sensor_key_other (sensor_id other prefix rest : string) :
  sensor_id ≠ other →
  forallb_str not_tab sensor_id = true →
  forallb_str not_tab other = true →
  forallb_str is_upper_digit prefix = true →
  sensor_key sensor_id (prefix +:+ String "_" (other +:+ String TAB rest))
  = None.
Proof.
  intros Hne Hid Hother Hprefix.
  apply eq_None_not_Some. intros [s H]. unfold sensor_key in H.
  apply bind_Some in H as ([a b] & Hmany & H).
  unfold many1 in Hmany. rewrite span_stops in Hmany by done.
  destruct prefix; [done|]. injection Hmany as <- <-.
  apply bind_Some in H as (s1 & Hs1 & H). injection Hs1 as <-.
  apply bind_Some in H as (s2 & Hs2 & H).
  pose proof (lit_other_id sensor_id other rest Hne Hid Hother) as Hnone.
  rewrite Hs2 in Hnone. simpl in Hnone. by rewrite H in Hnone.
Qed.

Lemma keyed_value_other (sensor_id other prefix rest : string) :
  sensor_id ≠ other →
  forallb_str not_tab sensor_id = true →
  forallb_str not_tab other = true →
  forallb_str is_upper_digit prefix = true →
  (many1 is_upper_digit
     (prefix +:+ String "_" (other +:+ String TAB rest))
   ≫= λ '(_, s), lit "_" s ≫= λ s, lit sensor_id s ≫= value_tail) = None.
Proof.
  intros Hne Hid Hother Hprefix.
  apply eq_None_not_Some. intros [x H].
  apply bind_Some in H as ([a b] & Hmany & H).
  unfold many1 in Hmany. rewrite span_stops in Hmany by done.
  destruct prefix; [done|]. injection Hmany as <- <-.
  apply bind_Some in H as (s1 & Hs1 & H). injection Hs1 as <-.
  apply bind_Some in H as (s2 & Hs2 & H).
  pose proof (lit_other_id sensor_id other rest Hne Hid Hother) as Hnone.
  rewrite Hs2 in Hnone. simpl in Hnone.
  unfold value_tail in H. apply bind_Some in H as (s3 & Hs3 & _).
  by rewrite Hs3 in Hnone.
Qed.



End OtherSensor.

(** ** The header decides the settings *)

Section HeaderOnly.

Import Text Py DashboardRunLog.

Lemma read_section_data_until (entry : string → option (string * setting))
    data (s rest : list string) (e : string) :
  Forall (λ l, starts_with section_end l = false) s →
  starts_with section_end e = true →
  (read_section entry data (s ++ e :: rest)).1
  = (read_section entry data (s ++ [e])).1.
Proof.
  intros Hs He. revert data.
  induction Hs as [|l s Hl _ IH]; intros data; simpl.
  - by rewrite He.
  - rewrite Hl. destruct (entry l) as [[label v]|]; apply IH.
Qed.

(** X14: once both sections are closed by their [###] line, what follows
    in the file has no part in the settings: the mapping, and with it the
    sensor ids, the circumference and the offset, are those of the header
    alone. *)
Theorem settings_decided_by_header
    (a s1 b s2 body : list string) (tm e1 rm e2 : string) :
  Forall (λ x, starts_with time_and_date x = false) a →
  starts_with time_and_date tm = true →
  Forall (λ x, starts_with section_end x = false) s1 →
  starts_with section_end e1 = true →
  Forall (λ x, starts_with rider_and_device x = false) b →
  starts_with rider_and_device rm = true →
  Forall (λ x, starts_with section_end x = false) s2 →
  starts_with section_end e2 = true →
  let header := a ++ tm :: s1 ++ e1 :: b ++ rm :: s2 ++ [e2] in
  settings (header ++ body) = settings header
  ∧ speed_settings (header ++ body) = speed_settings header
  ∧ power_settings (header ++ body) = power_settings header.
Proof.
  intros Ha Htm Hs1 He1 Hb Hrm Hs2 He2 header.
  assert (Hsettings : settings (header ++ body) = settings header).
  { unfold header.
    replace ((a ++ tm :: s1 ++ e1 :: b ++ rm :: s2 ++ [e2]) ++ body)
      with (a ++ tm :: s1 ++ e1 :: b ++ rm :: s2 ++ e2 :: body)
      by by simplify_list_eq.
    unfold settings. rewrite !skip_to_found by done.
    pose proof (read_section_rest time_entry ∅ s1
                  (b ++ rm :: s2 ++ e2 :: body) e1 Hs1 He1) as Hrest.
    pose proof (read_section_rest time_entry ∅ s1
                  (b ++ rm :: s2 ++ [e2]) e1 Hs1 He1) as Hrest'.
    pose proof (read_section_data_until time_entry ∅ s1
                  (b ++ rm :: s2 ++ e2 :: body) e1 Hs1 He1) as Hd.
    pose proof (read_section_data_until time_entry ∅ s1
                  (b ++ rm :: s2 ++ [e2]) e1 Hs1 He1) as Hd'.
    destruct (read_section time_entry ∅
                (s1 ++ e1 :: b ++ rm :: s2 ++ e2 :: body)) as [d rest].
    destruct (read_section time_entry ∅
                (s1 ++ e1 :: b ++ rm :: s2 ++ [e2])) as [d' rest'].
    simpl in *. subst rest rest'. rewrite <- Hd' in Hd. subst d'.
    rewrite !skip_to_found by done.
    pose proof (read_section_data_until rider_entry d s2 body e2 Hs2 He2)
      as Hdata.
    destruct (read_section rider_entry d (s2 ++ e2 :: body)).
    destruct (read_section rider_entry d (s2 ++ [e2])).
    simpl in Hdata. by subst. }
  split_and!; [done|..].
  - unfold speed_settings. by rewrite Hsettings.
  - unfold power_settings. by rewrite Hsettings.
Qed.

Lemma settings_decided_by_header_witness :
  settings (Sample.header
            ++ [Sample.speed_announcement "1700000000.1" "2048" "50";
                Sample.speed_broadcast "1700000000.5" "9.876500"])
  = settings Sample.header
  ∧ speed_settings
      (Sample.header
       ++ [Sample.speed_announcement "1700000000.1" "2048" "50";
           Sample.speed_broadcast "1700000000.5" "9.876500"])
    = speed_settings Sample.header
  ∧ power_settings
      (Sample.header
       ++ [Sample.speed_announcement "1700000000.1" "2048" "50";
           Sample.speed_broadcast "1700000000.5" "9.876500"])
    = power_settings Sample.header.
Proof.
  apply (settings_decided_by_header []
           [line ["#"; ""; "Start Date:"; "2023-11-14"]] []
           [line ["#"; ""; "SPEED"; "BSPD_12345"; "2.105"; "0"];
            line ["#"; ""; "POWER"; "PWR_777"; "512"; "0"]]
           [Sample.speed_announcement "1700000000.1" "2048" "50";
            Sample.speed_broadcast "1700000000.5" "9.876500"]
           (line ["#"; "Time and Date"]) (line ["###"])
           (line ["#"; "Rider and Device Data"]) (line ["###"])).
  - constructor.
  - reflexivity.
  - repeat constructor.
  - reflexivity.
  - constructor.
  - reflexivity.
  - repeat constructor.
  - reflexivity.
Defined.

End HeaderOnly.

(** ** A settings line without parameters *)

Section NoParameters.

Import Text Py DashboardRunLog Main Table.

Lemma settings_data_fields (lines : list string) (k : string) (v : setting) :
  settings_data lines !! k = Some v →
  Forall (λ s, field s = true) (setting_strings v).
Proof.
  unfold settings_data, settings.
  pose proof (read_section_all
                (λ k v, lower_case k = true
                        ∧ Forall (λ s, field s = true) (setting_strings v))
                time_entry (skip_to time_and_date lines) ∅
                time_entry_shape) as H1.
  destruct (read_section time_entry ∅ (skip_to time_and_date lines))
    as [d rest].
  pose proof (read_section_all
                (λ k v, lower_case k = true
                        ∧ Forall (λ s, field s = true) (setting_strings v))
                rider_entry (skip_to rider_and_device rest) d
                rider_entry_shape) as H2.
  destruct (read_section rider_entry d (skip_to rider_and_device rest))
    as [d' rest'].
  simpl in *. intros H. apply H2 in H; [tauto|].
  apply H1. intros k' v'. by rewrite lookup_empty.
Qed.

Lemma first_character_has_no_sensor_id (value : string) :
  field value = true →
  String.get 0 value ≠ Some "_"%char →
  ∃ c, String.get 0 value = Some c
       ∧ sensor_id_of (String c EmptyString) = Raised ValueError.
Proof.
  destruct value as [|c value]; [done|]. intros _ Hc. simpl.
  exists c. split; [done|]. unfold sensor_id_of. simpl.
  destruct (Ascii.eqb c "_") eqn:Heq; [|done].
  apply Ascii.eqb_eq in Heq. by subst.
Qed.

(** X15: when the [SPEED] line of the header gives a value and no
    parameters, the mapping holds a string, of which [speed] and [cg_speed]
    take the first character for the sensor name: unless that character is
    an underscore they raise ValueError, and so do [main] and [to_df].  The
    same holds of the [POWER] line and [power]. *)
Theorem line_without_parameters_is_a_value_error
    (lines : list string) (value : string) :
  String.get 0 value ≠ Some "_"%char →
  (settings_data lines !! "speed" = Some (Scalar value) →
   speed lines = ([], Some ValueError)
   ∧ cg_speed lines = ([], Some ValueError)
   ∧ main lines = Raised ValueError
   ∧ to_df lines = Raised ValueError)
  ∧ (settings_data lines !! "power" = Some (Scalar value) →
     power lines = ([], Some ValueError)).
Proof.
  intros Hc. split; intros H.
  - assert (Hs : speed_settings lines = Raised ValueError).
    { unfold speed_settings. rewrite settings_returned. simpl.
      unfold speed_params, getitem. rewrite H. simpl.
      pose proof (settings_data_fields _ _ _ H) as Hf.
      apply Forall_cons in Hf as [Hf _].
      destruct (first_character_has_no_sensor_id _ Hf Hc) as (c & -> & Hid).
      simpl. by rewrite Hid. }
    assert (Hspeed : speed lines = ([], Some ValueError))
      by (unfold speed; by rewrite Hs).
    split_and!; [done|unfold cg_speed; by rewrite Hs|..].
    + unfold main, list_of. by rewrite Hspeed.
    + unfold to_df, list_of. by rewrite Hspeed.
  - unfold power, power_settings. rewrite settings_returned. simpl.
    unfold power_params, getitem. rewrite H. simpl.
    pose proof (settings_data_fields _ _ _ H) as Hf.
    apply Forall_cons in Hf as [Hf _].
    destruct (first_character_has_no_sensor_id _ Hf Hc) as (c & -> & Hid).
    simpl. by rewrite Hid.
Qed.

Lemma line_without_parameters_is_a_value_error_witness :
  speed [line ["#"; "Time and Date"]; line ["###"];
         line ["#"; "Rider and Device Data"];
         line ["#"; ""; "SPEED"; "BSPD_12345"];
         line ["###"]] = ([], Some ValueError)
  ∧ cg_speed [line ["#"; "Time and Date"]; line ["###"];
              line ["#"; "Rider and Device Data"];
              line ["#"; ""; "SPEED"; "BSPD_12345"];
              line ["###"]] = ([], Some ValueError)
  ∧ main [line ["#"; "Time and Date"]; line ["###"];
          line ["#"; "Rider and Device Data"];
          line ["#"; ""; "SPEED"; "BSPD_12345"];
          line ["###"]] = Raised ValueError
  ∧ to_df [line ["#"; "Time and Date"]; line ["###"];
           line ["#"; "Rider and Device Data"];
           line ["#"; ""; "SPEED"; "BSPD_12345"];
           line ["###"]] = Raised ValueError.
Proof.
  destruct (line_without_parameters_is_a_value_error
              [line ["#"; "Time and Date"]; line ["###"];
               line ["#"; "Rider and Device Data"];
               line ["#"; ""; "SPEED"; "BSPD_12345"];
               line ["###"]] "BSPD_12345") as [H _].
  - discriminate.
  - apply H. reflexivity.
Defined.

End NoParameters.

(** ** The first record of [cg_speed] *)

Section CgFirstRecord.

Import Text Py DashboardRunLog.

Variable sensor_id : string.
Variable circumference : Q.
Variable a : Z * Z.

Lemma keep_latest_without_entry (rest : list string) :
  Forall (λ x, cg_next_pattern sensor_id x = None) rest →
  (keep_latest sensor_id circumference a None rest).1 = None.
Proof.
  induction 1 as [|x rest Hx _ IH]; simpl; [done|].
  rewrite Hx. by destruct (speed_pattern sensor_id x).
Qed.

Lemma keep_latest_to_entry (pre rest : list string) (v : string) m :
  Forall (λ x, cg_next_pattern sensor_id x = None) pre →
  cg_next_pattern sensor_id v = Some m →
  keep_latest sensor_id circumference a None (pre ++ v :: rest)
  = keep_latest sensor_id circumference a
      (Some (speed_record circumference a m)) rest.
Proof.
  intros Hpre Hv. induction Hpre as [|x pre Hx _ IH]; simpl.
  - rewrite Hv. by destruct (speed_pattern sensor_id v).
  - rewrite Hx. by destruct (speed_pattern sensor_id x).
Qed.

Lemma keep_latest_holds (rest : list string) (r : SpeedSensorRecord.t) :
  ∃ r', (keep_latest sensor_id circumference a (Some r) rest).1 = Some r'
        ∧ (r' = r
           ∨ ∃ m, m ∈ omap (cg_next_pattern sensor_id) rest
                  ∧ r' = speed_record circumference a m).
Proof.
  revert r. induction rest as [|x rest IH]; intros r; simpl.
  - eauto.
  - destruct (speed_pattern sensor_id x); [by eauto|].
    destruct (cg_next_pattern sensor_id x) as [m|] eqn:Hx.
    + destruct (IH (speed_record circumference a m))
        as (r' & Hr' & [Heq|(m' & Hm' & Heq)]);
        exists r'; (split; [done|right]).
      * exists m. split; [set_solver|done].
      * exists m'. split; [set_solver|done].
    + destruct (IH r) as (r' & Hr' & [Heq|(m' & Hm' & Heq)]);
        exists r'; (split; [done|]); [by left|right].
      exists m'. split; [set_solver|done].
Qed.

End CgFirstRecord.

Section CgFirst.

Import Text Py DashboardRunLog.



End CgFirst.

(** ** A line without its line feed *)

Section Unterminated.

Import Text Py DashboardRunLog.

Variable p : ascii → bool.

Lemma lit_rest (pre s rest : string) :
  lit pre s = Some rest → forallb_str p s = true → forallb_str p rest = true.
Proof.
  intros ->%lit_inv. induction pre as [|c pre IH]; simpl; [done|].
  intros [_ H]%andb_prop. by apply IH.
Qed.

Lemma span_rest (q : ascii → bool) (s : string) :
  forallb_str p s = true → forallb_str p (span q s).2 = true.
Proof.
  induction s as [|c s IH]; simpl; [done|].
  intros H. destruct (q c); [|done].
  apply andb_prop in H as [_ H]. specialize (IH H).
  by destruct (span q s).
Qed.

Lemma many1_rest (q : ascii → bool) (s a b : string) :
  many1 q s = Some (a, b) → forallb_str p s = true → forallb_str p b = true.
Proof.
  unfold many1. intros H Hs. pose proof (span_rest q s Hs) as Hb.
  destruct (span q s) as [[|c a'] b']; [done|]. by injection H as <- <-.
Qed.

Lemma decimal_rest (s ip fp rest : string) :
  decimal s = Some (ip, fp, rest) →
  forallb_str p s = true → forallb_str p rest = true.
Proof.
  unfold decimal. intros H Hs.
  apply bind_Some in H as ([? s1] & H1 & H).
  apply bind_Some in H as (s2 & H2 & H).
  apply bind_Some in H as ([? s3] & H3 & H).
  injection H as <- <- <-.
  eapply many1_rest; [exact H3|]. eapply lit_rest; [exact H2|].
  by eapply many1_rest.
Qed.

End Unterminated.

Section UnterminatedLines.

Import Text Py DashboardRunLog.

Lemma value_tail_needs_line_feed (s : string) :
  forallb_str (λ c, negb (Ascii.eqb c LF)) s = true → value_tail s = None.
Proof.
  intros Hs. destruct (value_tail s) as [m|] eqn:H; [exfalso|done].
  unfold value_tail in H.
  apply bind_Some in H as (s1 & H1 & H).
  apply bind_Some in H as ([[ti tf] s2] & H2 & H).
  apply bind_Some in H as (s3 & H3 & H).
  apply bind_Some in H as ([[vi vf] s4] & H4 & H).
  apply bind_Some in H as (s5 & H5 & _).
  assert (H : forallb_str (λ c, negb (Ascii.eqb c LF)) s4 = true).
  { eapply decimal_rest; [exact H4|]. eapply lit_rest; [exact H3|].
    eapply decimal_rest; [exact H2|]. by eapply lit_rest. }
  by apply lit_inv in H5 as ->.
Qed.

Lemma chomp_needs_line_feed (s : string) :
  forallb_str (λ c, negb (Ascii.eqb c LF)) s = true → chomp s = None.
Proof.
  induction s as [|c s IH]; [done|]. simpl.
  intros [Hc Hs]%andb_prop. rewrite (IH Hs).
  destruct s; [|done]. by destruct (Ascii.eqb c LF).
Qed.



End UnterminatedLines.
